(** * gt update: rebuild and reinstall the gt binary from source

    A shallow embedding of [internal/cmd/update.go] (package [cmd]) and the
    properties of its self-update command.

    The command is glue over the operating system: it prints, reads one
    line from standard input, runs subprocesses and touches a handful of
    files.  The embedding therefore threads an explicit [World] (a file
    system and the trace of observable events) through a small monad with
    Go's early [return], and takes everything the process cannot decide
    itself (collaborating packages, subprocess outcomes, the clock, the
    user's answer) from an [Env] record. *)

From Stdlib Require Import ZArith String Ascii List Lia Bool.
From stdpp Require Import base option gmap strings list pretty.

Local Open Scope string_scope.
Local Open Scope Z_scope.

(** ** Go values *)

(** A Go [(T, error)] result that is used only through [err != nil]. *)
Inductive Result (A : Type) : Type :=
| Ok (a : A)
| Err (e : string).
Arguments Ok {A} a.
Arguments Err {A} e.

(** A Go [error] value: [None] is [nil]. *)
Abbreviation GoError := (option string).

Definition nl : string := String (ascii_of_nat 10) "".

(** ** Package [strings] (on ASCII text) *)

Module strings.

(** [strings.Contains(s, substr)]. *)
Fixpoint Contains (s substr : string) : bool :=
  String.prefix substr s ||
  match s with
  | EmptyString => false
  | String _ s' => Contains s' substr
  end.

Definition isSpace (c : ascii) : bool :=
  let n := nat_of_ascii c in
  ((9 <=? n) && (n <=? 13))%nat || (n =? 32)%nat.

Fixpoint TrimLeft (s : string) : string :=
  match s with
  | String c s' => if isSpace c then TrimLeft s' else s
  | EmptyString => EmptyString
  end.

Fixpoint TrimRight (s : string) : string :=
  match s with
  | String c s' =>
      match TrimRight s' with
      | EmptyString => if isSpace c then EmptyString else String c EmptyString
      | t => String c t
      end
  | EmptyString => EmptyString
  end.

(** [strings.TrimSpace(s)]: leading and trailing white space removed. *)
Definition TrimSpace (s : string) : string := TrimRight (TrimLeft s).

Definition lowerChar (c : ascii) : ascii :=
  let n := nat_of_ascii c in
  if ((65 <=? n) && (n <=? 90))%nat then ascii_of_nat (n + 32) else c.

(** [strings.ToLower(s)]. *)
Fixpoint ToLower (s : string) : string :=
  match s with
  | String c s' => String (lowerChar c) (ToLower s')
  | EmptyString => EmptyString
  end.

End strings.

(** ** Package [path/filepath] (Unix separator) *)

Module filepath.

Definition sep : ascii := "/"%char.

(** The elements of a path between separators, left to right. *)
Fixpoint split (s : string) : list string :=
  match s with
  | EmptyString => [EmptyString]
  | String c s' =>
      if Ascii.eqb c sep then EmptyString :: split s'
      else match split s' with
           | e :: es => String c e :: es
           | [] => [String c EmptyString]
           end
  end.

Definition rooted (s : string) : bool :=
  match s with
  | String c _ => Ascii.eqb c sep
  | EmptyString => false
  end.

(** One element pushed on the (reversed) stack of kept elements:
    empty and [.] elements vanish, [..] removes the element before it,
    is dropped at the root and is kept at the start of a relative path. *)
Definition cleanStep (isRooted : bool) (stack : list string) (e : string)
  : list string :=
  if String.eqb e "" || String.eqb e "." then stack
  else if String.eqb e ".." then
    match stack with
    | top :: rest => if String.eqb top ".." then e :: stack else rest
    | [] => if isRooted then [] else [e]
    end
  else e :: stack.

Fixpoint joinSep (es : list string) : string :=
  match es with
  | [] => ""
  | [e] => e
  | e :: es' => e ++ "/" ++ joinSep es'
  end.

(** [filepath.Clean(path)]. *)
Definition Clean (path : string) : string :=
  let r := rooted path in
  let kept := rev (fold_left (cleanStep r) (split path) []) in
  let body := joinSep kept in
  if r then "/" ++ body
  else if String.eqb body "" then "." else body.

(** [filepath.Join(elem...)]: empty elements are ignored, the rest is
    joined by the separator and cleaned; no element at all gives [""]. *)
Definition Join (elem : list string) : string :=
  match filter (fun e => negb (String.eqb e "")) elem with
  | [] => ""
  | es => Clean (joinSep es)
  end.

(** The text up to and including the last separator. *)
Fixpoint dirPart (s : string) : string :=
  match s with
  | EmptyString => EmptyString
  | String c s' =>
      match dirPart s' with
      | EmptyString => if Ascii.eqb c sep then String c EmptyString else EmptyString
      | d => String c d
      end
  end.

(** [filepath.Dir(path)]: all but the last element, cleaned. *)
Definition Dir (path : string) : string := Clean (dirPart path).

End filepath.

(** ** The file system *)

Record File := mkFile { f_data : string; f_mode : Z }.

Record FileSys := mkFileSys {
  files : gmap string File;   (* regular files, by path *)
  dirs  : gset string         (* directories, by path *)
}.

(** Failures the file system inflicts from outside the model's state
    (a full disk, an I/O error, a read-only mount). *)
Record Faults := mkFaults {
  fault_read   : string -> bool;
  fault_write  : string -> option nat;  (* bytes written before the failure *)
  fault_rename : string -> string -> bool;
  fault_mkdir  : string -> bool
}.

Definition noFaults : Faults :=
  mkFaults (fun _ => false) (fun _ => None) (fun _ _ => false) (fun _ => false).

Module os.

Section WithFaults.
Variable F : Faults.
Variable umask : Z.

(** [os.ReadFile(name)]. *)
Definition ReadFile (name : string) (fs : FileSys) : Result string :=
  match files fs !! name with
  | None => Err ("open " ++ name ++ ": no such file or directory")
  | Some f =>
      if fault_read F name
      then Err ("read " ++ name ++ ": input/output error")
      else Ok (f_data f)
  end.

Definition take_string (n : nat) (s : string) : string :=
  String.substring 0 n s.

(** [os.WriteFile(name, data, perm)]: create or truncate, then write.
    [perm] (cut by the umask) applies only when the file is created. *)
Definition WriteFile (name data : string) (perm : Z) (fs : FileSys)
  : FileSys * GoError :=
  if bool_decide (name ∈ dirs fs) then
    (fs, Some ("open " ++ name ++ ": is a directory"))
  else if negb (bool_decide (filepath.Dir name ∈ dirs fs)) then
    (fs, Some ("open " ++ name ++ ": no such file or directory"))
  else
    let mode := match files fs !! name with
                | Some f => f_mode f
                | None => Z.land perm (Z.lnot umask)
                end in
    match fault_write F name with
    | Some k =>
        (mkFileSys (<[name := mkFile (take_string k data) mode]> (files fs)) (dirs fs),
         Some ("write " ++ name ++ ": no space left on device"))
    | None =>
        (mkFileSys (<[name := mkFile data mode]> (files fs)) (dirs fs), None)
    end.

(** [os.Rename(oldpath, newpath)]: all or nothing. *)
Definition Rename (oldpath newpath : string) (fs : FileSys) : FileSys * GoError :=
  match files fs !! oldpath with
  | None =>
      (fs, Some ("rename " ++ oldpath ++ " " ++ newpath
                 ++ ": no such file or directory"))
  | Some f =>
      if bool_decide (newpath ∈ dirs fs) then
        (fs, Some ("rename " ++ oldpath ++ " " ++ newpath ++ ": file exists"))
      else if negb (bool_decide (filepath.Dir newpath ∈ dirs fs)) then
        (fs, Some ("rename " ++ oldpath ++ " " ++ newpath
                   ++ ": no such file or directory"))
      else if fault_rename F oldpath newpath then
        (fs, Some ("rename " ++ oldpath ++ " " ++ newpath
                   ++ ": operation not permitted"))
      else
        (mkFileSys (<[newpath := f]> (delete oldpath (files fs))) (dirs fs), None)
  end.

Definition dirEmpty (d : string) (fs : FileSys) : bool :=
  forallb (fun q => negb (String.eqb (filepath.Dir q) d))
          (filter (fun q => negb (String.eqb q d))
                  (elements (dom (files fs) ∪ dirs fs))).

(** [os.Remove(name)]: a file, or an empty directory. *)
Definition Remove (name : string) (fs : FileSys) : FileSys * GoError :=
  match files fs !! name with
  | Some _ => (mkFileSys (delete name (files fs)) (dirs fs), None)
  | None =>
      if bool_decide (name ∈ dirs fs) then
        if dirEmpty name fs
        then (mkFileSys (files fs) (dirs fs ∖ {[name]}), None)
        else (fs, Some ("remove " ++ name ++ ": directory not empty"))
      else (fs, Some ("remove " ++ name ++ ": no such file or directory"))
  end.

(** [path] and the directories above it, nearest first. *)
Fixpoint ancestors (fuel : nat) (path : string) : list string :=
  match fuel with
  | O => []
  | S fuel' =>
      let d := filepath.Dir path in
      path :: (if String.eqb d path then [] else ancestors fuel' d)
  end.

(** [os.MkdirAll(path, perm)]: the directory and every missing parent. *)
Definition MkdirAll (path : string) (perm : Z) (fs : FileSys) : FileSys * GoError :=
  let chain := ancestors (S (String.length path)) path in
  if existsb (fun a => bool_decide (is_Some (files fs !! a))) chain then
    (fs, Some ("mkdir " ++ path ++ ": not a directory"))
  else if fault_mkdir F path then
    (fs, Some ("mkdir " ++ path ++ ": permission denied"))
  else (mkFileSys (files fs) (dirs fs ∪ list_to_set chain), None).

(** [os.Stat(name)], used only for its error. *)
Definition Stat (name : string) (fs : FileSys) : GoError :=
  if bool_decide (is_Some (files fs !! name)) || bool_decide (name ∈ dirs fs)
  then None
  else Some ("stat " ++ name ++ ": no such file or directory").

End WithFaults.

End os.

(** ** Worlds, events and the environment *)

(** What an observer of the process sees, in order. *)
Inductive Event :=
| EvPrint (text : string)                                   (* standard output *)
| EvScanln                                                  (* a read of standard input *)
| EvExec (name : string) (args : list string) (dir : string) (* a subprocess *)
| EvReadFile (name : string)
| EvWriteFile (name data : string) (perm : Z)
| EvRename (oldpath newpath : string)
| EvRemove (name : string)
| EvMkdirAll (path : string) (perm : Z)
| EvStat (name : string).

Record World := mkWorld { fs : FileSys; trace : list Event }.

(** [version.StaleBinaryInfo]. *)
Record StaleBinaryInfo := mkStaleBinaryInfo {
  IsStale       : bool;
  BinaryCommit  : string;
  RepoCommit    : string;
  CommitsBehind : Z;
  Error         : GoError
}.

(** The styles of package [style] that this file renders with. *)
Inductive Style := Bold | Dim | Success | Warning.

(** What [fmt.Scanln(&response)] did to [response]. *)
Inductive ScanOutcome :=
| Scanned (token : string)   (* a token was stored (an error may still be reported) *)
| ScanFailed.                (* nothing was stored: empty line, EOF, closed input *)

(** Everything the command takes from outside this file. *)
Record Env := mkEnv {
  (* packages [version] and [style] of this repository *)
  version_GetRepoRoot      : Result string;
  version_CheckStaleBinary : string -> StaleBinaryInfo;
  version_ShortCommit      : string -> string;
  style_Render             : Style -> string -> string;
  (* the process and its runtime *)
  os_Executable            : Result string;
  filepath_EvalSymlinks    : string -> Result string;
  os_UserHomeDir           : Result string;
  exec_LookPath            : string -> Result string;
  os_TempDir               : string;
  runtime_Version          : string;
  runtime_GOOS             : string;
  time_Now_Unix            : Z;
  time_Now_UTC_RFC3339     : string;
  fmt_Scanln               : ScanOutcome;
  (* a subprocess run to completion: its effect on the files, and its
     standard output or its failure *)
  subprocess : string -> list string -> string -> FileSys -> FileSys * Result string;
  (* the file system's own behaviour *)
  faults : Faults;
  umask  : Z
}.

(** ** Go function bodies: state, trace and early return *)

Inductive Outcome (R A : Type) : Type :=
| Next (a : A)        (* fall through to the next statement *)
| Returned (r : R).   (* the enclosing function has returned [r] *)
Arguments Next {R A} a.
Arguments Returned {R A} r.

Definition M (R A : Type) : Type := World -> Outcome R A * World.

#[global] Instance M_ret {R} : MRet (M R) := fun A a w => (Next a, w).

#[global] Instance M_bind {R} : MBind (M R) := fun A B f m w =>
  match m w with
  | (Next a, w') => f a w'
  | (Returned r, w') => (Returned r, w')
  end.

(** [return r]. *)
Definition Return {R A} (r : R) : M R A := fun w => (Returned r, w).

(** A Go function with result [R]. *)
Definition Fn (R : Type) : Type := World -> R * World.

Definition func {R} (body : M R R) : Fn R := fun w =>
  match body w with
  | (Next r, w') => (r, w')
  | (Returned r, w') => (r, w')
  end.

(** A call of a function from inside another body. *)
Definition call {R R'} (f : Fn R') : M R R' := fun w =>
  let '(r, w') := f w in (Next r, w').

(** [defer cleanup] in front of the rest of the body. *)
Definition defer {R A} (cleanup : World -> World) (rest : M R A) : M R A :=
  fun w => let '(o, w') := rest w in (o, cleanup w').

Definition emit (e : Event) (w : World) : World :=
  mkWorld (fs w) (trace w ++ [e]).

Definition skip {R} : M R unit := mret tt.

Section Primitives.
Variable E : Env.
Context {R : Type}.

Definition Printf (text : string) : M R unit :=
  fun w => (Next tt, emit (EvPrint text) w).

Definition Println (text : string) : M R unit := Printf (text ++ nl).

Definition Scanln : M R string := fun w =>
  (Next match fmt_Scanln E with Scanned token => token | ScanFailed => "" end,
   emit EvScanln w).

(** [exec.Command(name, args...)] with [Dir = dir], run to completion. *)
Definition Exec (name : string) (args : list string) (dir : string)
  : M R (Result string) := fun w =>
  let '(fs', out) := subprocess E name args dir (fs w) in
  (Next out, mkWorld fs' (trace w ++ [EvExec name args dir])).

Definition ReadFile (name : string) : M R (Result string) := fun w =>
  (Next (os.ReadFile (faults E) name (fs w)), emit (EvReadFile name) w).

Definition fsOp (op : FileSys -> FileSys * GoError) (e : Event) : M R GoError :=
  fun w => let '(fs', err) := op (fs w) in
           (Next err, mkWorld fs' (trace w ++ [e])).

Definition WriteFile (name data : string) (perm : Z) : M R GoError :=
  fsOp (os.WriteFile (faults E) (umask E) name data perm)
       (EvWriteFile name data perm).

Definition Rename (oldpath newpath : string) : M R GoError :=
  fsOp (os.Rename (faults E) oldpath newpath) (EvRename oldpath newpath).

Definition Remove (name : string) : M R GoError :=
  fsOp (os.Remove name) (EvRemove name).

Definition MkdirAll (path : string) (perm : Z) : M R GoError :=
  fsOp (os.MkdirAll (faults E) path perm) (EvMkdirAll path perm).

Definition Stat (name : string) : M R GoError := fun w =>
  (Next (os.Stat name (fs w)), emit (EvStat name) w).

End Primitives.

(** [os.Remove(name)] as a deferred call: its error is dropped. *)
Definition removeDeferred (name : string) (w : World) : World :=
  snd (Remove (R := unit) name w).

(** ** The command *)

(** [versionInfo] contains build version information. *)
Record versionInfo := mkVersionInfo {
  Version   : string;
  Commit    : string;
  BuildTime : string
}.

(** The octal literal [0755]. *)
Definition perm_0755 : Z := 7 * 64 + 5 * 8 + 5.

Definition isNil (err : GoError) : bool :=
  match err with None => true | Some _ => false end.

Section Update.
Variable E : Env.

(** [copyFile] copies a file from [src] to [dst] by writing a temporary
    file next to [dst] and renaming it over [dst]. *)
Definition copyFile (src dst : string) : Fn GoError := func (
  (* Read source file *)
  read ← ReadFile E src;
  match read with
  | Err err => Return (Some ("reading source: " ++ err))
  | Ok data =>
      (* Write to temp file in same directory (for atomic rename) *)
      let tmpDst := dst ++ ".new" in
      err ← WriteFile E tmpDst data perm_0755;
      match err with
      | Some err => Return (Some ("writing temp file: " ++ err))
      | None =>
          (* Atomically rename *)
          err ← Rename E tmpDst dst;
          match err with
          | Some err =>
              Remove tmpDst;;     (* Clean up temp file *)
              Return (Some ("renaming temp file: " ++ err))
          | None => Return None
          end
      end
  end).

(** [determineInstallLocation] finds where to install the gt binary:
    the location of the running binary, else [~/.local/bin/gt]. *)
Definition determineInstallLocation : Fn (string * GoError) := func (
  (* Try to find current binary location *)
  match os_Executable E with
  | Ok currentBinary =>
      (* Resolve symlinks *)
      let currentBinary :=
        match filepath_EvalSymlinks E currentBinary with
        | Ok resolved => resolved
        | Err _ => currentBinary
        end in
      (* Check if it's in a reasonable location *)
      if negb (strings.Contains currentBinary "/tmp")
         && negb (strings.Contains currentBinary "go-build")
      then Return (currentBinary, None)
      else skip
  | Err _ => skip
  end;;
  (* Default to ~/.local/bin/gt *)
  match os_UserHomeDir E with
  | Err err => Return ("", Some ("getting home directory: " ++ err))
  | Ok home => Return (filepath.Join [home; ".local"; "bin"; "gt"], None)
  end).

(** [getVersionInfo] extracts version information from the git
    repository. *)
Definition getVersionInfo (repoDir : string)
  : Fn (Result versionInfo) := func (
  let buildTime := time_Now_UTC_RFC3339 E in
  (* Get version from git describe *)
  versionOutput ← Exec E "git" ["describe"; "--tags"; "--always"; "--dirty"] repoDir;
  let version :=
    match versionOutput with
    | Err _ => "dev"
    | Ok out => strings.TrimSpace out
    end in
  (* Get commit hash *)
  commitOutput ← Exec E "git" ["rev-parse"; "HEAD"] repoDir;
  match commitOutput with
  | Err err => Return (Err ("getting commit hash: " ++ err))
  | Ok out =>
      Return (Ok (mkVersionInfo version (strings.TrimSpace out) buildTime))
  end).

Definition ldflagsOf (v : versionInfo) : string :=
  "-X github.com/steveyegge/gastown/internal/cmd.Version=" ++ Version v
  ++ " -X github.com/steveyegge/gastown/internal/cmd.Commit=" ++ Commit v
  ++ " -X github.com/steveyegge/gastown/internal/cmd.BuildTime=" ++ BuildTime v.

Definition staleMessage (info : StaleBinaryInfo) : string :=
  let short := version_ShortCommit E in
  if 0 <? CommitsBehind info
  then "Binary is " ++ pretty (CommitsBehind info) ++ " commits behind (built from "
       ++ short (BinaryCommit info) ++ ", repo at " ++ short (RepoCommit info) ++ ")"
  else "Binary is stale (built from "
       ++ short (BinaryCommit info) ++ ", repo at " ++ short (RepoCommit info) ++ ")".

(** [runUpdate], with the two package-level flags as parameters. *)
Definition runUpdate (updateForce updateDryRun : bool) : Fn GoError := func (
  let render := style_Render E in
  (* Find the gt source repository *)
  match version_GetRepoRoot E with
  | Err err =>
      Return (Some ("cannot locate gt source repository: " ++ err ++ nl ++ nl
        ++ "Make sure you have the gastown repository cloned and set GT_ROOT if needed"))
  | Ok repoRoot =>
  Printf (render Bold "🔍" ++ " Found gt repository at " ++ render Dim repoRoot ++ nl ++ nl);;
  (* Check if binary is stale *)
  let info := version_CheckStaleBinary E repoRoot in
  (if isNil (Error info) && negb (IsStale info) then
     Printf (render Success "✓" ++ " Binary is already up to date ("
            ++ version_ShortCommit E (BinaryCommit info) ++ ")" ++ nl);;
     if negb updateForce then
       Println (nl ++ "Use --force to rebuild anyway");;
       Return None
     else Println ""
   else if isNil (Error info) && IsStale info then
     Printf (render Warning "⚠" ++ " " ++ staleMessage info ++ nl ++ nl)
   else skip);;
  (* Determine install location *)
  located ← call determineInstallLocation;
  let '(installPath, err) := located in
  match err with
  | Some err => Return (Some ("determining install location: " ++ err))
  | None =>
  Printf ("Build configuration:" ++ nl);;
  Printf ("  Source:  " ++ repoRoot ++ nl);;
  Printf ("  Target:  " ++ installPath ++ nl);;
  Printf ("  Go:      " ++ runtime_Version E ++ nl);;
  (* Check if go is available *)
  match exec_LookPath E "go" with
  | Err err =>
      Return (Some ("go command not found: " ++ err ++ nl ++ nl
        ++ "Make sure Go is installed and in your PATH"))
  | Ok _ =>
  if updateDryRun then
    Printf (nl ++ render Dim "ℹ" ++ " Dry run mode - no changes will be made" ++ nl);;
    Println (nl ++ "Would execute:");;
    Printf ("  1. Run go generate in " ++ repoRoot ++ nl);;
    Printf ("  2. Build binary with version info" ++ nl);;
    Printf ("  3. Install to " ++ installPath ++ nl);;
    (if String.eqb (runtime_GOOS E) "darwin"
     then Printf ("  4. Codesign binary for macOS" ++ nl) else skip);;
    Return None
  else
  (* Prompt for confirmation unless --force *)
  (if negb updateForce then
     Printf (nl ++ "Continue with rebuild? [Y/n] ");;
     response ← Scanln E;
     let response := strings.ToLower (strings.TrimSpace response) in
     if String.eqb response "n" || String.eqb response "no" then
       Println "Aborted.";;
       Return None
     else skip
   else skip);;
  Println "";;
  Println "Building gt...";;
  (* Get version info for ldflags *)
  got ← call (getVersionInfo repoRoot);
  match got with
  | Err err => Return (Some ("getting version info: " ++ err))
  | Ok versionInfo =>
  (* Run go generate *)
  Printf ("  • Running go generate..." ++ nl);;
  gen ← Exec E "go" ["generate"; "./..."] repoRoot;
  match gen with
  | Err err => Return (Some ("go generate failed: " ++ err))
  | Ok _ =>
  (* Build binary to temporary location first *)
  let tmpBinary :=
    filepath.Join [os_TempDir E; "gt-build-" ++ pretty (time_Now_Unix E)] in
  defer (removeDeferred tmpBinary) (
  Printf ("  • Building binary..." ++ nl);;
  let ldflags := ldflagsOf versionInfo in
  build ← Exec E "go" ["build"; "-ldflags"; ldflags; "-o"; tmpBinary; "./cmd/gt"] repoRoot;
  match build with
  | Err err => Return (Some ("go build failed: " ++ err))
  | Ok _ =>
  (* Verify the binary was created *)
  err ← Stat tmpBinary;
  match err with
  | Some err =>
      Return (Some ("build succeeded but binary not found at " ++ tmpBinary
                    ++ ": " ++ err))
  | None =>
  (* Install to target location *)
  Printf ("  • Installing to " ++ installPath ++ "..." ++ nl);;
  (* Ensure target directory exists *)
  let targetDir := filepath.Dir installPath in
  err ← MkdirAll E targetDir perm_0755;
  match err with
  | Some err => Return (Some ("creating target directory: " ++ err))
  | None =>
  (* Copy the binary (handles overwriting current binary) *)
  err ← call (copyFile tmpBinary installPath);
  match err with
  | Some err => Return (Some ("installing binary: " ++ err))
  | None =>
  (* On macOS, codesign the binary *)
  (if String.eqb (runtime_GOOS E) "darwin" then
     Printf ("  • Codesigning for macOS..." ++ nl);;
     Exec E "codesign" ["-s"; "-"; "-f"; installPath] "";;
     skip
   else skip);;
  Printf (nl ++ render Success "✓" ++ " gt updated successfully!" ++ nl);;
  Printf (nl ++ "Installed: " ++ installPath ++ nl);;
  Printf ("Version:   " ++ Version versionInfo ++ nl);;
  Printf ("Commit:    " ++ version_ShortCommit E (Commit versionInfo) ++ nl);;
  Return None
  end end end end) end end end end end).

End Update.

(** ** Sample environments

    A Linux machine with gt installed in [/usr/local/bin], its sources in
    [/src/gastown], and a toolchain whose [go build] writes the requested
    output file. *)

Module Sample.

Definition toolchain (name : string) (args : list string) (dir : string)
  (f : FileSys) : FileSys * Result string :=
  if String.eqb name "git" then
    match args with
    | "describe" :: _ => (f, Ok ("v0.2.1-3-gabc123d" ++ nl))
    | _ => (f, Ok ("abc123d4e5f60718293a4b5c6d7e8f9012345678" ++ nl))
    end
  else
    match args with
    | "build" :: _ :: _ :: _ :: out :: _ =>
        (mkFileSys (<[out := mkFile "ELF" perm_0755]> (files f)) (dirs f), Ok "")
    | _ => (f, Ok "")
    end.

(** As [toolchain], but [git rev-parse HEAD] fails and [git describe]
    fails too (not a git checkout). *)
Definition noGit (name : string) (args : list string) (dir : string)
  (f : FileSys) : FileSys * Result string :=
  if String.eqb name "git" then (f, Err "exit status 128")
  else toolchain name args dir f.

Definition shortCommit (hash : string) : string := String.substring 0 12 hash.

Definition stale3 : StaleBinaryInfo :=
  mkStaleBinaryInfo true "abc000" "abc123" 3 None.

Definition env : Env := {|
  version_GetRepoRoot := Ok "/src/gastown";
  version_CheckStaleBinary := fun _ => stale3;
  version_ShortCommit := shortCommit;
  style_Render := fun _ text => text;
  os_Executable := Ok "/usr/local/bin/gt";
  filepath_EvalSymlinks := fun p => Ok p;
  os_UserHomeDir := Ok "/home/u";
  exec_LookPath := fun _ => Ok "/usr/bin/go";
  os_TempDir := "/tmp";
  runtime_Version := "go1.22.0";
  runtime_GOOS := "linux";
  time_Now_Unix := 1700000000;
  time_Now_UTC_RFC3339 := "2023-11-14T22:13:20Z";
  fmt_Scanln := Scanned "y";
  subprocess := toolchain;
  faults := noFaults;
  umask := 18
|}.

Definition withStale (info : StaleBinaryInfo) (e : Env) : Env :=
  mkEnv (version_GetRepoRoot e) (fun _ => info) (version_ShortCommit e)
    (style_Render e) (os_Executable e) (filepath_EvalSymlinks e)
    (os_UserHomeDir e) (exec_LookPath e) (os_TempDir e) (runtime_Version e)
    (runtime_GOOS e) (time_Now_Unix e) (time_Now_UTC_RFC3339 e)
    (fmt_Scanln e) (subprocess e) (faults e) (umask e).

Definition withRepoRoot (r : Result string) (e : Env) : Env :=
  mkEnv r (version_CheckStaleBinary e) (version_ShortCommit e)
    (style_Render e) (os_Executable e) (filepath_EvalSymlinks e)
    (os_UserHomeDir e) (exec_LookPath e) (os_TempDir e) (runtime_Version e)
    (runtime_GOOS e) (time_Now_Unix e) (time_Now_UTC_RFC3339 e)
    (fmt_Scanln e) (subprocess e) (faults e) (umask e).

Definition withExecutable (exe home : Result string) (e : Env) : Env :=
  mkEnv (version_GetRepoRoot e) (version_CheckStaleBinary e)
    (version_ShortCommit e) (style_Render e) exe (filepath_EvalSymlinks e)
    home (exec_LookPath e) (os_TempDir e) (runtime_Version e)
    (runtime_GOOS e) (time_Now_Unix e) (time_Now_UTC_RFC3339 e)
    (fmt_Scanln e) (subprocess e) (faults e) (umask e).

Definition withScan (s : ScanOutcome) (e : Env) : Env :=
  mkEnv (version_GetRepoRoot e) (version_CheckStaleBinary e)
    (version_ShortCommit e) (style_Render e) (os_Executable e)
    (filepath_EvalSymlinks e) (os_UserHomeDir e) (exec_LookPath e)
    (os_TempDir e) (runtime_Version e) (runtime_GOOS e) (time_Now_Unix e)
    (time_Now_UTC_RFC3339 e) s (subprocess e) (faults e) (umask e).

Definition withSubprocess
  (sp : string -> list string -> string -> FileSys -> FileSys * Result string)
  (e : Env) : Env :=
  mkEnv (version_GetRepoRoot e) (version_CheckStaleBinary e)
    (version_ShortCommit e) (style_Render e) (os_Executable e)
    (filepath_EvalSymlinks e) (os_UserHomeDir e) (exec_LookPath e)
    (os_TempDir e) (runtime_Version e) (runtime_GOOS e) (time_Now_Unix e)
    (time_Now_UTC_RFC3339 e) (fmt_Scanln e) sp (faults e) (umask e).

Definition withFaults (f : Faults) (e : Env) : Env :=
  mkEnv (version_GetRepoRoot e) (version_CheckStaleBinary e)
    (version_ShortCommit e) (style_Render e) (os_Executable e)
    (filepath_EvalSymlinks e) (os_UserHomeDir e) (exec_LookPath e)
    (os_TempDir e) (runtime_Version e) (runtime_GOOS e) (time_Now_Unix e)
    (time_Now_UTC_RFC3339 e) (fmt_Scanln e) (subprocess e) f (umask e).

(** A root, [/tmp] holding a freshly built binary, and the install
    directory holding the old one. *)
Definition disk : FileSys := {|
  files := {[ "/tmp/gt-build" := mkFile "ELF-new" perm_0755;
              "/usr/local/bin/gt" := mkFile "ELF-old" perm_0755 ]};
  dirs := {[ "/"; "/tmp"; "/usr"; "/usr/local"; "/usr/local/bin" ]}
|}.

Definition world : World := mkWorld disk [].

(** A machine on which nothing has been installed yet. *)
Definition freshDisk : FileSys := mkFileSys ∅ {[ "/"; "/tmp" ]}.

(** The disk fills up after four bytes of any write. *)
Definition diskFull : Faults :=
  mkFaults (fun _ => false) (fun _ => Some 4%nat) (fun _ _ => false) (fun _ => false).

End Sample.

(** ** Runs of [copyFile] *)

(** How a run of [copyFile] went, read off its steps. *)
Inductive CopyRun (E : Env) (src dst : string) (w : World)
  : GoError -> World -> Prop :=
| copy_read_failed e :
    os.ReadFile (faults E) src (fs w) = Err e ->
    CopyRun E src dst w (Some ("reading source: " ++ e))
      (mkWorld (fs w) (trace w ++ [EvReadFile src]))
| copy_write_failed data fs1 e :
    os.ReadFile (faults E) src (fs w) = Ok data ->
    os.WriteFile (faults E) (umask E) (dst ++ ".new") data perm_0755 (fs w)
      = (fs1, Some e) ->
    CopyRun E src dst w (Some ("writing temp file: " ++ e))
      (mkWorld fs1 (trace w ++ [EvReadFile src;
                                EvWriteFile (dst ++ ".new") data perm_0755]))
| copy_rename_failed data fs1 e :
    os.ReadFile (faults E) src (fs w) = Ok data ->
    os.WriteFile (faults E) (umask E) (dst ++ ".new") data perm_0755 (fs w)
      = (fs1, None) ->
    os.Rename (faults E) (dst ++ ".new") dst fs1 = (fs1, Some e) ->
    CopyRun E src dst w (Some ("renaming temp file: " ++ e))
      (mkWorld (os.Remove (dst ++ ".new") fs1).1
         (trace w ++ [EvReadFile src;
                      EvWriteFile (dst ++ ".new") data perm_0755;
                      EvRename (dst ++ ".new") dst;
                      EvRemove (dst ++ ".new")]))
| copy_done data fs1 fs2 :
    os.ReadFile (faults E) src (fs w) = Ok data ->
    os.WriteFile (faults E) (umask E) (dst ++ ".new") data perm_0755 (fs w)
      = (fs1, None) ->
    os.Rename (faults E) (dst ++ ".new") dst fs1 = (fs2, None) ->
    CopyRun E src dst w None
      (mkWorld fs2 (trace w ++ [EvReadFile src;
                                EvWriteFile (dst ++ ".new") data perm_0755;
                                EvRename (dst ++ ".new") dst])).

(** ** Reading [determineInstallLocation]'s inputs *)

(** The path that is tested for the markers: the running binary, through
    its symlinks when they resolve; [None] when the running binary is
    unknown. *)
Definition currentBinaryPath (E : Env) : option string :=
  match os_Executable E with
  | Ok currentBinary =>
      Some match filepath_EvalSymlinks E currentBinary with
           | Ok resolved => resolved
           | Err _ => currentBinary
           end
  | Err _ => None
  end.

(** A temp-directory or build-cache marker occurs in the path. *)
Definition ephemeral (path : string) : bool :=
  strings.Contains path "/tmp" || strings.Contains path "go-build".

(** The running binary's path cannot serve as install location. *)
Definition fallbackNeeded (E : Env) : bool :=
  match currentBinaryPath E with
  | Some path => ephemeral path
  | None => true
  end.


(** ** Weakest preconditions for function bodies *)

(** [Q] holds of the outcome and the world that [m] produces from [w]. *)
Definition wp {R A} (m : M R A) (w : World)
    (Q : Outcome R A -> World -> Prop) : Prop :=
  Q (m w).1 (m w).2.

Definition wpF {R} (f : Fn R) (w : World) (Q : R -> World -> Prop) : Prop :=
  Q (f w).1 (f w).2.

(** [w'] continues [w]: its trace is that of [w] with [evs] after it. *)
Definition since (w : World) (evs : list Event) (w' : World) : Prop :=
  trace w' = (trace w ++ evs)%list.

Definition isPrint (e : Event) : Prop := exists text, e = EvPrint text.

(** The confirmation answer as [runUpdate] compares it. *)
Definition response (E : Env) : string :=
  strings.ToLower (strings.TrimSpace
    match fmt_Scanln E with Scanned token => token | ScanFailed => "" end).

Definition declined (E : Env) : bool :=
  String.eqb (response E) "n" || String.eqb (response E) "no".


(** The install location, which depends on the environment alone. *)
Definition installLocation (E : Env) : string * GoError :=
  (determineInstallLocation E (mkWorld (mkFileSys ∅ ∅) [])).1.

(** What [runUpdate E force true] needs to get as far as its dry-run
    report, or to stop with success before it. *)
Definition dryRunSucceeds (E : Env) (force : bool) : Prop :=
  exists repoRoot,
    version_GetRepoRoot E = Ok repoRoot
    /\ ((Error (version_CheckStaleBinary E repoRoot) = None
         /\ IsStale (version_CheckStaleBinary E repoRoot) = false
         /\ force = false)
        \/ (exists installPath goPath,
              installLocation E = (installPath, None)
              /\ exec_LookPath E "go" = Ok goPath)).


(** What follows the read of the confirmation answer when the update goes
    ahead: a blank line, the ["Building gt..."] line and the first git
    query of [getVersionInfo]. *)
Fixpoint proceedsAfterAnswer (evs : list Event) : Prop :=
  match evs with
  | [] => True
  | EvScanln :: rest =>
      exists repoRoot post,
        rest = EvPrint ("" ++ nl) :: EvPrint ("Building gt..." ++ nl)
               :: EvExec "git" ["describe"; "--tags"; "--always"; "--dirty"] repoRoot
               :: post
  | _ :: rest => proceedsAfterAnswer rest
  end.


(** ** The staleness report and what follows it *)

Definition foundMessage (E : Env) (repoRoot : string) : string :=
  style_Render E Bold "🔍" ++ " Found gt repository at "
  ++ style_Render E Dim repoRoot ++ nl ++ nl.

Definition upToDateMessage (E : Env) (info : StaleBinaryInfo) : string :=
  style_Render E Success "✓" ++ " Binary is already up to date ("
  ++ version_ShortCommit E (BinaryCommit info) ++ ")" ++ nl.

Definition staleWarning (E : Env) (info : StaleBinaryInfo) : string :=
  style_Render E Warning "⚠" ++ " " ++ staleMessage E info ++ nl ++ nl.

Definition buildConfiguration (E : Env) (repoRoot installPath : string)
  : list Event :=
  [EvPrint ("Build configuration:" ++ nl);
   EvPrint ("  Source:  " ++ repoRoot ++ nl);
   EvPrint ("  Target:  " ++ installPath ++ nl);
   EvPrint ("  Go:      " ++ runtime_Version E ++ nl)].

(** The run went past the staleness check: [rest] are the events after
    the staleness report and [r] is the final result.  The next step,
    resolving the install location, was taken; when the pipeline is not
    stopped by a missing toolchain, a dry run or a declined confirmation,
    the build was started. *)
Definition continuesToRebuild (E : Env) (repoRoot : string)
    (force dry : bool) (r : GoError) (rest : list Event) : Prop :=
  match installLocation E with
  | (_, Some err) =>
      rest = [] /\ r = Some ("determining install location: " ++ err)
  | (installPath, None) =>
      exists rest',
        rest = (buildConfiguration E repoRoot installPath ++ rest')%list
        /\ match exec_LookPath E "go" with
           | Err err =>
               rest' = []
               /\ r = Some ("go command not found: " ++ err ++ nl ++ nl
                            ++ "Make sure Go is installed and in your PATH")
           | Ok _ =>
               dry = false ->
               force = true \/ declined E = false ->
               In (EvPrint ("Building gt..." ++ nl)) rest'
               /\ In (EvExec "git" ["describe"; "--tags"; "--always"; "--dirty"]
                             repoRoot) rest'
           end
  end.


(** ** Order of the install step *)

(** Every write of a file in [evs] comes directly after the creation of
    the directory of [installPath] (with permission [0755]) and the read of
    the file to install, and it writes [installPath ++ ".new"]. *)
Fixpoint writesFollowMkdir (installPath : string) (evs : list Event) : Prop :=
  match evs with
  | [] => True
  | EvWriteFile _ _ _ :: _ => False
  | EvMkdirAll dir perm :: rest =>
      match rest with
      | EvReadFile _ :: EvWriteFile name _ _ :: rest' =>
          (dir = filepath.Dir installPath /\ perm = perm_0755
           /\ name = installPath ++ ".new")
          /\ writesFollowMkdir installPath rest'
      | _ => writesFollowMkdir installPath rest
      end
  | _ :: rest => writesFollowMkdir installPath rest
  end.


(** ** The effects of a run *)

(** The temporary build output, [tmpBinary] in [runUpdate]. *)
Definition tmpBinaryPath (E : Env) : string :=
  filepath.Join [os_TempDir E; "gt-build-" ++ pretty (time_Now_Unix E)].

(** The repository root when it was found. *)
Definition repoRootOf (E : Env) : string :=
  match version_GetRepoRoot E with
  | Ok repoRoot => repoRoot
  | Err _ => ""
  end.

(** Everything but output and the read of the answer. *)
Definition isEffect (e : Event) : bool :=
  match e with
  | EvPrint _ | EvScanln => false
  | _ => true
  end.

Definition evDescribe (root : string) : Event :=
  EvExec "git" ["describe"; "--tags"; "--always"; "--dirty"] root.

Definition evRevParse (root : string) : Event :=
  EvExec "git" ["rev-parse"; "HEAD"] root.

Definition evGenerate (root : string) : Event :=
  EvExec "go" ["generate"; "./..."] root.

Definition evBuild (root tmp : string) (v : versionInfo) : Event :=
  EvExec "go" ["build"; "-ldflags"; ldflagsOf v; "-o"; tmp; "./cmd/gt"] root.

Definition evCodesign (installPath : string) : Event :=
  EvExec "codesign" ["-s"; "-"; "-f"; installPath] "".

(** The subprocesses and file operations of one run of [runUpdate], in
    order, for each place where the run can end.  [root] is the
    repository, [ip] the install path, [tmp] the temporary build output,
    [goos] the platform. *)
Inductive Effects (root ip tmp goos : string) : list Event -> Prop :=
| eff_none :
    Effects root ip tmp goos []
| eff_no_commit :
    Effects root ip tmp goos [evDescribe root; evRevParse root]
| eff_generate_failed :
    Effects root ip tmp goos [evDescribe root; evRevParse root; evGenerate root]
| eff_build_failed v :
    Effects root ip tmp goos
      [evDescribe root; evRevParse root; evGenerate root; evBuild root tmp v;
       EvRemove tmp]
| eff_artifact_missing v :
    Effects root ip tmp goos
      [evDescribe root; evRevParse root; evGenerate root; evBuild root tmp v;
       EvStat tmp; EvRemove tmp]
| eff_mkdir_failed v :
    Effects root ip tmp goos
      [evDescribe root; evRevParse root; evGenerate root; evBuild root tmp v;
       EvStat tmp; EvMkdirAll (filepath.Dir ip) perm_0755; EvRemove tmp]
| eff_read_failed v :
    Effects root ip tmp goos
      [evDescribe root; evRevParse root; evGenerate root; evBuild root tmp v;
       EvStat tmp; EvMkdirAll (filepath.Dir ip) perm_0755; EvReadFile tmp;
       EvRemove tmp]
| eff_write_failed v data :
    Effects root ip tmp goos
      [evDescribe root; evRevParse root; evGenerate root; evBuild root tmp v;
       EvStat tmp; EvMkdirAll (filepath.Dir ip) perm_0755; EvReadFile tmp;
       EvWriteFile (ip ++ ".new") data perm_0755; EvRemove tmp]
| eff_rename_failed v data :
    Effects root ip tmp goos
      [evDescribe root; evRevParse root; evGenerate root; evBuild root tmp v;
       EvStat tmp; EvMkdirAll (filepath.Dir ip) perm_0755; EvReadFile tmp;
       EvWriteFile (ip ++ ".new") data perm_0755; EvRename (ip ++ ".new") ip;
       EvRemove (ip ++ ".new"); EvRemove tmp]
| eff_installed v data :
    goos ≠ "darwin" ->
    Effects root ip tmp goos
      [evDescribe root; evRevParse root; evGenerate root; evBuild root tmp v;
       EvStat tmp; EvMkdirAll (filepath.Dir ip) perm_0755; EvReadFile tmp;
       EvWriteFile (ip ++ ".new") data perm_0755; EvRename (ip ++ ".new") ip;
       EvRemove tmp]
| eff_signed v data :
    goos = "darwin" ->
    Effects root ip tmp goos
      [evDescribe root; evRevParse root; evGenerate root; evBuild root tmp v;
       EvStat tmp; EvMkdirAll (filepath.Dir ip) perm_0755; EvReadFile tmp;
       EvWriteFile (ip ++ ".new") data perm_0755; EvRename (ip ++ ".new") ip;
       evCodesign ip; EvRemove tmp].

(** The error of the first failing check in front of the build, if any:
    repository, install location, toolchain. *)
Definition preflightError (E : Env) : GoError :=
  match version_GetRepoRoot E with
  | Err err =>
      Some ("cannot locate gt source repository: " ++ err ++ nl ++ nl
            ++ "Make sure you have the gastown repository cloned and set GT_ROOT if needed")
  | Ok _ =>
      match installLocation E with
      | (_, Some err) => Some ("determining install location: " ++ err)
      | (_, None) =>
          match exec_LookPath E "go" with
          | Err err =>
              Some ("go command not found: " ++ err ++ nl ++ nl
                    ++ "Make sure Go is installed and in your PATH")
          | Ok _ => None
          end
      end
  end.

(** The binary is reported up to date and [force] is off. *)
Definition upToDateStop (E : Env) (force : bool) : Prop :=
  exists repoRoot,
    version_GetRepoRoot E = Ok repoRoot
    /\ Error (version_CheckStaleBinary E repoRoot) = None
    /\ IsStale (version_CheckStaleBinary E repoRoot) = false
    /\ force = false.

(** The environment with another outcome of the read of the answer. *)
Definition setScanln (s : ScanOutcome) (E : Env) : Env :=
  mkEnv (version_GetRepoRoot E) (version_CheckStaleBinary E)
    (version_ShortCommit E) (style_Render E) (os_Executable E)
    (filepath_EvalSymlinks E) (os_UserHomeDir E) (exec_LookPath E)
    (os_TempDir E) (runtime_Version E) (runtime_GOOS E) (time_Now_Unix E)
    (time_Now_UTC_RFC3339 E) s (subprocess E) (faults E) (umask E).

(** The answer as typed, without surrounding white space. *)
Definition answer (E : Env) : string :=
  strings.TrimSpace
    match fmt_Scanln E with Scanned token => token | ScanFailed => "" end.


Definition isFileOp (e : Event) : bool :=
  match e with
  | EvReadFile _ | EvWriteFile _ _ _ | EvRename _ _ | EvRemove _
  | EvMkdirAll _ _ | EvStat _ => true
  | _ => false
  end.

(** The steps that come after a successful build. *)
Definition isInstallOp (e : Event) : bool :=
  match e with
  | EvStat _ | EvMkdirAll _ _ | EvReadFile _ | EvWriteFile _ _ _ | EvRename _ _ => true
  | EvExec name _ _ => String.eqb name "codesign"
  | _ => false
  end.

(** The spellings that decline the confirmation. *)
Definition decliningAnswers : list string := ["n"; "N"; "no"; "No"; "nO"; "NO"].

(** ** More sample environments *)

Module Scenario.

(** [go generate] fails; everything else as in [Sample.toolchain]. *)
Definition generateFails (name : string) (args : list string) (dir : string)
  (f : FileSys) : FileSys * Result string :=
  match args with
  | "generate" :: _ => (f, Err "exit status 1")
  | _ => Sample.toolchain name args dir f
  end.

(** [go build] fails; everything else as in [Sample.toolchain]. *)
Definition buildFails (name : string) (args : list string) (dir : string)
  (f : FileSys) : FileSys * Result string :=
  match args with
  | "build" :: _ => (f, Err "exit status 2")
  | _ => Sample.toolchain name args dir f
  end.

(** [codesign] fails; everything else as in [Sample.toolchain]. *)
Definition codesignFails (name : string) (args : list string) (dir : string)
  (f : FileSys) : FileSys * Result string :=
  if String.eqb name "codesign" then (f, Err "exit status 1")
  else Sample.toolchain name args dir f.

(** A Mac on which [codesign] does not work. *)
Definition darwin : Env := {|
  version_GetRepoRoot := Ok "/src/gastown";
  version_CheckStaleBinary := fun _ => Sample.stale3;
  version_ShortCommit := Sample.shortCommit;
  style_Render := fun _ text => text;
  os_Executable := Ok "/usr/local/bin/gt";
  filepath_EvalSymlinks := fun p => Ok p;
  os_UserHomeDir := Ok "/Users/u";
  exec_LookPath := fun _ => Ok "/usr/local/go/bin/go";
  os_TempDir := "/var/folders/zz/T";
  runtime_Version := "go1.22.0";
  runtime_GOOS := "darwin";
  time_Now_Unix := 1700000000;
  time_Now_UTC_RFC3339 := "2023-11-14T22:13:20Z";
  fmt_Scanln := Scanned "y";
  subprocess := codesignFails;
  faults := noFaults;
  umask := 18
|}.

(** A machine without Go on the path. *)
Definition noGo : Env := {|
  version_GetRepoRoot := Ok "/src/gastown";
  version_CheckStaleBinary := fun _ => Sample.stale3;
  version_ShortCommit := Sample.shortCommit;
  style_Render := fun _ text => text;
  os_Executable := Ok "/usr/local/bin/gt";
  filepath_EvalSymlinks := fun p => Ok p;
  os_UserHomeDir := Ok "/home/u";
  exec_LookPath := fun _ => Err "exec: go: executable file not found in $PATH";
  os_TempDir := "/tmp";
  runtime_Version := "go1.22.0";
  runtime_GOOS := "linux";
  time_Now_Unix := 1700000000;
  time_Now_UTC_RFC3339 := "2023-11-14T22:13:20Z";
  fmt_Scanln := Scanned "y";
  subprocess := Sample.toolchain;
  faults := noFaults;
  umask := 18
|}.

(** The running binary sits in [/opt/gt/bin], reached through a symlink,
    and the home directory is unknown. *)
Definition homeless : Env := {|
  version_GetRepoRoot := Ok "/src/gastown";
  version_CheckStaleBinary := fun _ => Sample.stale3;
  version_ShortCommit := Sample.shortCommit;
  style_Render := fun _ text => text;
  os_Executable := Ok "/usr/bin/gt";
  filepath_EvalSymlinks := fun _ => Ok "/opt/gt/bin/gt";
  os_UserHomeDir := Err "$HOME is not defined";
  exec_LookPath := fun _ => Ok "/usr/bin/go";
  os_TempDir := "/tmp";
  runtime_Version := "go1.22.0";
  runtime_GOOS := "linux";
  time_Now_Unix := 1700000000;
  time_Now_UTC_RFC3339 := "2023-11-14T22:13:20Z";
  fmt_Scanln := Scanned "y";
  subprocess := Sample.toolchain;
  faults := noFaults;
  umask := 18
|}.

(** A leftover temporary file of an interrupted installation, not
    executable. *)
Definition leftoverDisk : FileSys := {|
  files := {[ "/tmp/gt-build" := mkFile "ELF-new" perm_0755;
              "/usr/local/bin/gt" := mkFile "ELF-old" perm_0755;
              "/usr/local/bin/gt.new" := mkFile "EL" 420 ]};
  dirs := {[ "/"; "/tmp"; "/usr"; "/usr/local"; "/usr/local/bin" ]}
|}.

End Scenario.


(** * Properties *)

(** ** Facts about the file system operations *)

Lemma append_length (a b : string) :
  String.length (a ++ b) = (String.length a + String.length b)%nat.
Proof. induction a as [|c a IH]; simpl; [reflexivity | now rewrite IH]. Qed.

(** The temporary file is never the destination itself. *)
Lemma tmp_neq_dst (dst : string) : dst ++ ".new" ≠ dst.
Proof.
  intros H. apply (f_equal String.length) in H.
  rewrite append_length in H. simpl in H. lia.
Qed.

Lemma ReadFile_Ok F name fsys data :
  os.ReadFile F name fsys = Ok data ->
  exists f, files fsys !! name = Some f /\ f_data f = data /\ fault_read F name = false.
Proof.
  unfold os.ReadFile. destruct (files fsys !! name) as [f|]; [|discriminate].
  destruct (fault_read F name); [discriminate|].
  intros [= <-]. eauto.
Qed.

Lemma WriteFile_dirs F u name data perm fsys fsys' err :
  os.WriteFile F u name data perm fsys = (fsys', err) -> dirs fsys' = dirs fsys.
Proof.
  unfold os.WriteFile.
  repeat (case_bool_decide || case_match); simpl; intros [= <- <-]; reflexivity.
Qed.

Lemma WriteFile_Ok F u name data perm fsys fsys' :
  os.WriteFile F u name data perm fsys = (fsys', None) ->
  exists mode, files fsys' = <[name := mkFile data mode]> (files fsys)
               /\ filepath.Dir name ∈ dirs fsys.
Proof.
  unfold os.WriteFile.
  case_bool_decide; [discriminate|].
  case_bool_decide; simpl; [|discriminate].
  destruct (fault_write F name); [discriminate|].
  intros [= <-]. simpl. eauto.
Qed.

(** A failed write has touched nothing but [name] itself. *)
Lemma WriteFile_Err_others F u name data perm fsys fsys' e other :
  os.WriteFile F u name data perm fsys = (fsys', Some e) ->
  other ≠ name -> files fsys' !! other = files fsys !! other.
Proof.
  unfold os.WriteFile. intros H Hne.
  repeat (case_bool_decide || case_match); simplify_eq/=; try reflexivity.
  all: now rewrite lookup_insert_ne.
Qed.

Lemma Rename_Err F oldpath newpath fsys fsys' e :
  os.Rename F oldpath newpath fsys = (fsys', Some e) -> fsys' = fsys.
Proof.
  unfold os.Rename.
  repeat (case_bool_decide || case_match); simpl; intros [= <-]; congruence.
Qed.

Lemma Rename_Ok F oldpath newpath fsys fsys' :
  os.Rename F oldpath newpath fsys = (fsys', None) ->
  exists f, files fsys !! oldpath = Some f
            /\ files fsys' = <[newpath := f]> (delete oldpath (files fsys))
            /\ dirs fsys' = dirs fsys.
Proof.
  unfold os.Rename.
  destruct (files fsys !! oldpath) as [f|]; [|discriminate].
  repeat (case_bool_decide || case_match); simpl; try discriminate.
  intros [= <-]. eauto.
Qed.

Lemma Remove_file name fsys f :
  files fsys !! name = Some f ->
  os.Remove name fsys = (mkFileSys (delete name (files fsys)) (dirs fsys), None).
Proof. unfold os.Remove. now intros ->. Qed.

(** ** The atomic file installer, [copyFile] *)

Lemma copyFile_run E src dst w :
  CopyRun E src dst w (copyFile E src dst w).1 (copyFile E src dst w).2.
Proof.
  unfold copyFile, func, mbind, M_bind, ReadFile, WriteFile, Rename, Remove,
    fsOp, Return, emit; simpl.
  destruct (os.ReadFile (faults E) src (fs w)) as [data|e] eqn:Hread; simpl.
  2: { now constructor. }
  destruct (os.WriteFile _ _ _ _ _ _) as [fs1 [e|]] eqn:Hwrite; simpl.
  { rewrite <- app_assoc. eapply copy_write_failed; eauto. }
  destruct (os.Rename _ _ _ _) as [fs2 [e|]] eqn:Hren; simpl.
  - pose proof (Rename_Err _ _ _ _ _ _ Hren) as ->.
    destruct (os.Remove (dst ++ ".new") fs1) as [fs3 e3] eqn:Hrm; simpl.
    rewrite <- !app_assoc. simpl.
    replace fs3 with (os.Remove (dst ++ ".new") fs1).1 by now rewrite Hrm.
    eapply copy_rename_failed; eauto.
  - rewrite <- !app_assoc. simpl. eapply copy_done; eauto.
Qed.

(** C1. [copyFile] reads the whole source, writes those bytes to
    [dst ++ ".new"] with permission [0755] and renames that file onto
    [dst]: after a successful run the destination holds the source's bytes
    and the temporary file is gone.  When the rename fails, the temporary
    file is removed before the rename error is returned, so
    [dst ++ ".new"] does not exist afterwards and [dst] is as it was. *)
Theorem copyFile_atomic_install (E : Env) (src dst : string)
    (w w' : World) (r : GoError) :
  copyFile E src dst w = (r, w') ->
  let tmp := dst ++ ".new" in
  (r = None ->
     exists f mode,
       files (fs w) !! src = Some f
       /\ trace w' = (trace w ++ [EvReadFile src;
                                  EvWriteFile tmp (f_data f) perm_0755;
                                  EvRename tmp dst])%list
       /\ files (fs w') !! dst = Some (mkFile (f_data f) mode)
       /\ files (fs w') !! tmp = None)
  /\ (forall f fs1 e,
        files (fs w) !! src = Some f ->
        fault_read (faults E) src = false ->
        os.WriteFile (faults E) (umask E) tmp (f_data f) perm_0755 (fs w)
          = (fs1, None) ->
        (os.Rename (faults E) tmp dst fs1).2 = Some e ->
        r = Some ("renaming temp file: " ++ e)
        /\ trace w' = (trace w ++ [EvReadFile src;
                                   EvWriteFile tmp (f_data f) perm_0755;
                                   EvRename tmp dst;
                                   EvRemove tmp])%list)
  /\ (forall e,
        r = Some ("renaming temp file: " ++ e) ->
        files (fs w') !! tmp = None
        /\ files (fs w') !! dst = files (fs w) !! dst
        /\ exists evs,
             trace w' = (trace w ++ evs ++ [EvRename tmp dst; EvRemove tmp])%list).
Proof.
  intros Hrun tmp. subst tmp.
  pose proof (copyFile_run E src dst w) as Hc. rewrite Hrun in Hc. simpl in Hc.
  split; [|split].
  - intros ->. inversion Hc as [| | |data fs1 fs2 Hread Hwrite Hren]; subst.
    apply ReadFile_Ok in Hread as (f & Hf & <- & _).
    apply WriteFile_Ok in Hwrite as (mode & Hfiles1 & _).
    apply Rename_Ok in Hren as (f' & Hold & Hfiles2 & _).
    rewrite Hfiles1, lookup_insert_eq in Hold. injection Hold as <-.
    exists f, mode. simpl. rewrite Hfiles2.
    repeat split; try done.
    + now rewrite lookup_insert_eq.
    + rewrite lookup_insert_ne by (intros H; symmetry in H; now apply tmp_neq_dst in H).
      now rewrite lookup_delete_eq.
  - intros f fs1 e Hf Hnofault Hwrite Hren.
    assert (Hread : os.ReadFile (faults E) src (fs w) = Ok (f_data f)).
    { unfold os.ReadFile. now rewrite Hf, Hnofault. }
    inversion Hc as [e' Hr| data fs1' e' Hr Hw | data fs1' e' Hr Hw Hrn
                    | data fs1' fs2 Hr Hw Hrn]; subst;
      rewrite Hread in Hr; simplify_eq; rewrite Hwrite in Hw; simplify_eq.
    + rewrite Hrn in Hren. simpl in Hren. now simplify_eq.
    + rewrite Hrn in Hren. discriminate.
  - intros e ->.
    inversion Hc as [e' Hr Heq| data fs1' e' Hr Hw Heq | data fs1 e' Hr Hw Hrn Heq
                    | ]; subst; simpl in Heq; try discriminate.
    apply WriteFile_Ok in Hw as (mode & Hfiles1 & _).
    assert (Htmp : files fs1 !! (dst ++ ".new") = Some (mkFile data mode))
      by now rewrite Hfiles1, lookup_insert_eq.
    rewrite (Remove_file _ _ _ Htmp). simpl. rewrite Hfiles1.
    repeat split.
    + now rewrite lookup_delete_eq.
    + rewrite lookup_delete_ne by apply tmp_neq_dst.
      rewrite lookup_insert_ne by apply tmp_neq_dst. reflexivity.
    + now exists [EvReadFile src; EvWriteFile (dst ++ ".new") data perm_0755].
Qed.

(** Installing over a directory: the write succeeds, the rename fails,
    and the temporary file is gone when the rename error comes back. *)
Lemma copyFile_atomic_install_witness :
  exists w',
    copyFile Sample.env "/tmp/gt-build" "/usr/local/bin" Sample.world
    = (Some "renaming temp file: rename /usr/local/bin.new /usr/local/bin: file exists", w')
    /\ files (fs w') !! "/usr/local/bin.new" = None
    /\ files (fs w') !! "/usr/local/bin" = files (fs Sample.world) !! "/usr/local/bin".
Proof.
  exists (copyFile Sample.env "/tmp/gt-build" "/usr/local/bin" Sample.world).2.
  assert (Hrun : copyFile Sample.env "/tmp/gt-build" "/usr/local/bin" Sample.world
                 = (Some "renaming temp file: rename /usr/local/bin.new /usr/local/bin: file exists",
                    (copyFile Sample.env "/tmp/gt-build" "/usr/local/bin" Sample.world).2))
    by (vm_compute; reflexivity).
  split; [exact Hrun|].
  destruct (copyFile_atomic_install _ _ _ _ _ _ Hrun) as (_ & _ & Hrename).
  destruct (Hrename "rename /usr/local/bin.new /usr/local/bin: file exists" eq_refl)
    as (Htmp & Hdst & _).
  split; [exact Htmp | exact Hdst].
Defined.

(** A full disk cuts the write short: [copyFile] returns the write error
    and the four bytes that were written stay behind in [dst ++ ".new"]. *)
Lemma copyFile_partial_tmp_remains :
  let run := copyFile (Sample.withFaults Sample.diskFull Sample.env)
               "/tmp/gt-build" "/usr/local/bin/gt" Sample.world in
  run.1 = Some "writing temp file: write /usr/local/bin/gt.new: no space left on device"
  /\ files (fs run.2) !! "/usr/local/bin/gt.new" = Some (mkFile "ELF-" perm_0755)
  /\ trace run.2 = [EvReadFile "/tmp/gt-build";
                    EvWriteFile "/usr/local/bin/gt.new" "ELF-new" perm_0755].
Proof. vm_compute. repeat split. Qed.

(** C10. When writing [dst ++ ".new"] fails, [copyFile] returns the write
    error straight away: the write is the last thing it does, no removal is
    attempted, and the file system is left as the failed write left it.  A
    removal of the temporary file happens only in a run that returns the
    rename error.  A partially written [dst ++ ".new"] can therefore
    remain after a write failure. *)
Theorem copyFile_write_failure_no_cleanup (E : Env) (src dst : string)
    (w w' : World) (r : GoError) :
  copyFile E src dst w = (r, w') ->
  let tmp := dst ++ ".new" in
  (forall e,
     r = Some ("writing temp file: " ++ e) ->
     exists data,
       trace w' = (trace w ++ [EvReadFile src; EvWriteFile tmp data perm_0755])%list
       /\ os.WriteFile (faults E) (umask E) tmp data perm_0755 (fs w) = (fs w', Some e))
  /\ (forall evs name,
        trace w' = (trace w ++ evs)%list ->
        In (EvRemove name) evs ->
        name = tmp /\ exists e, r = Some ("renaming temp file: " ++ e))
  /\ (exists E0 src0 dst0 w0 part,
        (exists e, (copyFile E0 src0 dst0 w0).1 = Some ("writing temp file: " ++ e))
        /\ files (fs (copyFile E0 src0 dst0 w0).2) !! (dst0 ++ ".new") = Some part
        /\ files (fs w0) !! (dst0 ++ ".new") = None
        /\ exists f, files (fs w0) !! src0 = Some f /\ f_data part ≠ f_data f).
Proof.
  intros Hrun tmp. subst tmp.
  pose proof (copyFile_run E src dst w) as Hc. rewrite Hrun in Hc. simpl in Hc.
  split; [|split].
  - intros e ->.
    inversion Hc as [e' Hr Heq| data fs1 e' Hr Hw Heq | data fs1 e' Hr Hw Hrn Heq
                    | ]; subst; simpl in Heq; try discriminate.
    change (e' = e) in Heq. subst e'. now exists data.
  - intros evs name Htr Hin.
    inversion Hc as [e' Hr| data fs1 e' Hr Hw | data fs1 e' Hr Hw Hrn
                    | data fs1 fs2 Hr Hw Hrn]; subst; simpl in Htr;
      apply app_inv_head in Htr; subst evs; simpl in Hin;
      repeat (destruct Hin as [Hin|Hin]; try discriminate Hin); try contradiction.
    injection Hin as <-. eauto.
  - exists (Sample.withFaults Sample.diskFull Sample.env),
      "/tmp/gt-build", "/usr/local/bin/gt", Sample.world, (mkFile "ELF-" perm_0755).
    destruct copyFile_partial_tmp_remains as (Hr & Hf & _).
    split; [eexists; exact Hr|].
    split; [exact Hf|].
    split; [vm_compute; reflexivity|].
    exists (mkFile "ELF-new" perm_0755). split; [vm_compute; reflexivity|].
    simpl. discriminate.
Qed.

Lemma copyFile_write_failure_no_cleanup_witness :
  let E := Sample.withFaults Sample.diskFull Sample.env in
  let run := copyFile E "/tmp/gt-build" "/usr/local/bin/gt" Sample.world in
  run.1 = Some ("writing temp file: " ++ "write /usr/local/bin/gt.new: no space left on device")
  /\ exists data,
       trace run.2 = (trace Sample.world
                      ++ [EvReadFile "/tmp/gt-build";
                          EvWriteFile "/usr/local/bin/gt.new" data perm_0755])%list
       /\ os.WriteFile (faults E) (umask E) "/usr/local/bin/gt.new" data perm_0755
            (fs Sample.world)
          = (fs run.2, Some "write /usr/local/bin/gt.new: no space left on device").
Proof.
  intros E run.
  assert (Hr : run.1 = Some ("writing temp file: "
                 ++ "write /usr/local/bin/gt.new: no space left on device"))
    by (vm_compute; reflexivity).
  split; [exact Hr|].
  destruct (copyFile_write_failure_no_cleanup E "/tmp/gt-build" "/usr/local/bin/gt"
              Sample.world run.2 run.1 (surjective_pairing _)) as (Hwrite & _ & _).
  exact (Hwrite _ Hr).
Defined.

(** [copyFile] called for a destination whose directory is missing: the
    write of the temporary file fails and the directory is still missing. *)
Lemma copyFile_does_not_create_parent :
  let run := copyFile Sample.env "/tmp/gt-build" "/opt/gt/bin/gt" Sample.world in
  (filepath.Dir "/opt/gt/bin/gt" ∉ dirs (fs Sample.world))
  /\ run.1 = Some "writing temp file: open /opt/gt/bin/gt.new: no such file or directory"
  /\ (filepath.Dir "/opt/gt/bin/gt" ∉ dirs (fs run.2))
  /\ trace run.2 = [EvReadFile "/tmp/gt-build";
                    EvWriteFile "/opt/gt/bin/gt.new" "ELF-new" perm_0755].
Proof.
  split; [|split; [|split]]; try (vm_compute; reflexivity);
    apply (proj1 (bool_decide_eq_false _)); vm_compute; reflexivity.
Qed.

(** ** Install-location resolution, [determineInstallLocation] *)

(** [determineInstallLocation] only consults the environment. *)
Lemma determineInstallLocation_frame E w :
  (determineInstallLocation E w).2 = w.
Proof.
  unfold determineInstallLocation, func, mbind, M_bind, Return, skip, mret, M_ret.
  repeat case_match; simplify_eq/=; reflexivity.
Qed.

Lemma determineInstallLocation_value E w :
  (determineInstallLocation E w).1 =
  match currentBinaryPath E with
  | Some path =>
      if ephemeral path then
        match os_UserHomeDir E with
        | Ok home => (filepath.Join [home; ".local"; "bin"; "gt"], None)
        | Err e => ("", Some ("getting home directory: " ++ e))
        end
      else (path, None)
  | None =>
      match os_UserHomeDir E with
      | Ok home => (filepath.Join [home; ".local"; "bin"; "gt"], None)
      | Err e => ("", Some ("getting home directory: " ++ e))
      end
  end.
Proof.
  unfold determineInstallLocation, currentBinaryPath, ephemeral, func, mbind,
    M_bind, Return, skip, mret, M_ret.
  destruct (os_Executable E) as [cb|]; simpl.
  - destruct (filepath_EvalSymlinks E cb) as [resolved|]; simpl;
      rewrite <- negb_orb;
      match goal with |- context [negb ?b] => destruct b end; simpl;
      destruct (os_UserHomeDir E); reflexivity.
  - destruct (os_UserHomeDir E); reflexivity.
Qed.

(** A home directory under [/tmp] with gt installed in it: the path of the
    running binary carries the temp-directory marker, the fallback is
    taken, and the fallback is that very path. *)
Lemma determineInstallLocation_returns_ephemeral :
  let E := Sample.withExecutable (Ok "/tmp/sandbox/.local/bin/gt")
             (Ok "/tmp/sandbox") Sample.env in
  currentBinaryPath E = Some "/tmp/sandbox/.local/bin/gt"
  /\ ephemeral "/tmp/sandbox/.local/bin/gt" = true
  /\ (determineInstallLocation E Sample.world).1
     = ("/tmp/sandbox/.local/bin/gt", None).
Proof. vm_compute. repeat split. Qed.

(** C6 (amended). When the running binary's resolved path carries the
    [/tmp] or the [go-build] marker, [determineInstallLocation] takes the
    fallback: it returns the home directory joined with [.local/bin/gt], or
    the home-directory error when there is no home directory.  The result
    is the marked path itself only when the fallback path is that path.
    Over all executions, the error comes back exactly when the fallback is
    needed and the home directory cannot be determined. *)
Theorem determineInstallLocation_fallback (E : Env) (w : World) :
  let result := (determineInstallLocation E w).1 in
  (forall path,
     currentBinaryPath E = Some path ->
     ephemeral path = true ->
     match os_UserHomeDir E with
     | Ok home => result = (filepath.Join [home; ".local"; "bin"; "gt"], None)
     | Err e => result = ("", Some ("getting home directory: " ++ e))
     end
     /\ (result = (path, None) ->
         exists home, os_UserHomeDir E = Ok home
                      /\ path = filepath.Join [home; ".local"; "bin"; "gt"]))
  /\ (result.2 ≠ None <->
      fallbackNeeded E = true /\ exists e, os_UserHomeDir E = Err e)
  /\ (determineInstallLocation E w).2 = w.
Proof.
  intros result. subst result.
  rewrite determineInstallLocation_value. unfold fallbackNeeded.
  split; [|split; [|apply determineInstallLocation_frame]].
  - intros path -> ->.
    destruct (os_UserHomeDir E) as [home|e]; split; try reflexivity.
    + intros [= <-]. eauto.
    + discriminate.
  - destruct (currentBinaryPath E) as [path|]; [destruct (ephemeral path)|];
      destruct (os_UserHomeDir E) as [home|e]; simpl; split;
      try (intros H; now contradiction H);
      try (intros [? [? ?]]; discriminate);
      try (intros _; split; [reflexivity | eauto]);
      try discriminate.
Qed.

Lemma determineInstallLocation_fallback_witness :
  let E := Sample.withExecutable (Ok "/tmp/go-build2711/b001/exe/gt")
             (Ok "/home/u") Sample.env in
  currentBinaryPath E = Some "/tmp/go-build2711/b001/exe/gt"
  /\ ephemeral "/tmp/go-build2711/b001/exe/gt" = true
  /\ (determineInstallLocation E Sample.world).1 = ("/home/u/.local/bin/gt", None).
Proof.
  intros E.
  assert (Hp : currentBinaryPath E = Some "/tmp/go-build2711/b001/exe/gt")
    by reflexivity.
  assert (He : ephemeral "/tmp/go-build2711/b001/exe/gt" = true)
    by (vm_compute; reflexivity).
  split; [exact Hp|]. split; [exact He|].
  destruct (determineInstallLocation_fallback E Sample.world) as (Hfb & _ & _).
  exact (proj1 (Hfb _ Hp He)).
Defined.

(** ** Rules for stepping through a body *)

Section Rules.
Context {R : Type}.
Implicit Types (w : World).

Lemma wp_bind {A B} (m : M R A) (f : A -> M R B) w Q :
  wp m w (fun o w' => match o with
                      | Next a => wp (f a) w' Q
                      | Returned r => Q (Returned r) w'
                      end) ->
  wp (m ≫= f) w Q.
Proof.
  unfold wp, mbind, M_bind. destruct (m w) as [[a|r] w']; simpl; auto.
Qed.

Lemma wp_ret {A} (a : A) w (Q : Outcome R A -> World -> Prop) :
  Q (Next a) w -> wp (mret a) w Q.
Proof. exact id. Qed.

Lemma wp_skip w (Q : Outcome R unit -> World -> Prop) :
  Q (Next tt) w -> wp skip w Q.
Proof. exact id. Qed.

Lemma wp_Return {A} (r : R) w (Q : Outcome R A -> World -> Prop) :
  Q (Returned r) w -> wp (Return r) w Q.
Proof. exact id. Qed.

Lemma wp_Printf text w (Q : Outcome R unit -> World -> Prop) :
  Q (Next tt) (emit (EvPrint text) w) -> wp (Printf text) w Q.
Proof. exact id. Qed.

Lemma wp_Println text w (Q : Outcome R unit -> World -> Prop) :
  Q (Next tt) (emit (EvPrint (text ++ nl)) w) -> wp (Println text) w Q.
Proof. exact id. Qed.

Lemma wp_Scanln E w (Q : Outcome R string -> World -> Prop) :
  Q (Next match fmt_Scanln E with Scanned t => t | ScanFailed => "" end)
    (emit EvScanln w) ->
  wp (Scanln E) w Q.
Proof. exact id. Qed.

Lemma wp_Exec E name args dir w (Q : Outcome R (Result string) -> World -> Prop) :
  (forall fs' out,
     subprocess E name args dir (fs w) = (fs', out) ->
     Q (Next out) (mkWorld fs' (trace w ++ [EvExec name args dir]))) ->
  wp (Exec E name args dir) w Q.
Proof.
  unfold wp, Exec. intros H.
  destruct (subprocess E name args dir (fs w)) as [fs' out] eqn:Hsub.
  simpl. now apply H.
Qed.

Lemma wp_fsOp op e w (Q : Outcome R GoError -> World -> Prop) :
  (forall fs' err,
     op (fs w) = (fs', err) ->
     Q (Next err) (mkWorld fs' (trace w ++ [e]))) ->
  wp (fsOp op e) w Q.
Proof.
  unfold wp, fsOp. intros H.
  destruct (op (fs w)) as [fs' err] eqn:Hop. simpl. now apply H.
Qed.

Lemma wp_ReadFile E name w (Q : Outcome R (Result string) -> World -> Prop) :
  Q (Next (os.ReadFile (faults E) name (fs w))) (emit (EvReadFile name) w) ->
  wp (ReadFile E name) w Q.
Proof. exact id. Qed.

Lemma wp_Stat name w (Q : Outcome R GoError -> World -> Prop) :
  Q (Next (os.Stat name (fs w))) (emit (EvStat name) w) ->
  wp (Stat name) w Q.
Proof. exact id. Qed.

Lemma wp_call {R'} (f : Fn R') w (Q : Outcome R R' -> World -> Prop) :
  wpF f w (fun r w' => Q (Next r) w') -> wp (call f) w Q.
Proof. unfold wp, wpF, call. now destruct (f w). Qed.

Lemma wp_defer {A} cleanup (rest : M R A) w Q :
  wp rest w (fun o w' => Q o (cleanup w')) -> wp (defer cleanup rest) w Q.
Proof. unfold wp, defer. now destruct (rest w). Qed.

Lemma wpF_func (body : M R R) w Q :
  wp body w (fun o w' => match o with Next r | Returned r => Q r w' end) ->
  wpF (func body) w Q.
Proof. unfold wp, wpF, func. now destruct (body w) as [[r|r] w']. Qed.

Lemma wp_mono {A} (m : M R A) w (Q Q' : Outcome R A -> World -> Prop) :
  wp m w Q -> (forall o w', Q o w' -> Q' o w') -> wp m w Q'.
Proof. unfold wp. auto. Qed.

End Rules.

Lemma wpF_run {R} (f : Fn R) w (Q : R -> World -> Prop) r w' :
  wpF f w Q -> f w = (r, w') -> Q r w'.
Proof. unfold wpF. intros H Heq. now rewrite Heq in H. Qed.

Lemma determineInstallLocation_pure E w :
  determineInstallLocation E w = (installLocation E, w).
Proof.
  unfold installLocation.
  rewrite (surjective_pairing (determineInstallLocation E w)).
  now rewrite determineInstallLocation_frame, !determineInstallLocation_value.
Qed.

Lemma wpF_determineInstallLocation E w (Q : string * GoError -> World -> Prop) :
  Q (installLocation E) w -> wpF (determineInstallLocation E) w Q.
Proof. unfold wpF. now rewrite determineInstallLocation_pure. Qed.

Lemma since_refl w : since w [] w.
Proof. unfold since. now rewrite app_nil_r. Qed.

Lemma since_emit w evs w' e :
  since w evs w' -> since w (evs ++ [e])%list (emit e w').
Proof. unfold since, emit. simpl. intros ->. now rewrite app_assoc. Qed.

Lemma since_snoc w evs w' fs' e :
  since w evs w' -> since w (evs ++ [e])%list (mkWorld fs' (trace w' ++ [e])).
Proof. unfold since. simpl. intros ->. now rewrite app_assoc. Qed.

Lemma since_removeDeferred w evs w' name :
  since w evs w' -> since w (evs ++ [EvRemove name])%list (removeDeferred name w').
Proof.
  unfold since, removeDeferred, Remove, fsOp. intros H.
  destruct (os.Remove name (fs w')); simpl. now rewrite H, app_assoc.
Qed.

(** One step of a body: the rule for the statement in front. *)
Ltac wp_step :=
  lazymatch goal with
  | |- wp (mbind _ _) _ _ => apply wp_bind
  | |- wp (Printf _) _ _ => apply wp_Printf
  | |- wp (Println _) _ _ => apply wp_Println
  | |- wp (Scanln _) _ _ => apply wp_Scanln
  | |- wp (Return _) _ _ => apply wp_Return
  | |- wp skip _ _ => apply wp_skip
  | |- wp (mret _) _ _ => apply wp_ret
  | |- wp (Exec _ _ _ _) _ _ => apply wp_Exec; intros ? ? ?
  | |- wp (MkdirAll _ _ _) _ _ => apply wp_fsOp; intros ? ? ?
  | |- wp (WriteFile _ _ _ _) _ _ => apply wp_fsOp; intros ? ? ?
  | |- wp (Rename _ _ _) _ _ => apply wp_fsOp; intros ? ? ?
  | |- wp (Remove _) _ _ => apply wp_fsOp; intros ? ? ?
  | |- wp (Stat _) _ _ => apply wp_Stat
  | |- wp (defer _ _) _ _ => apply wp_defer
  | |- wp (ReadFile _ _) _ _ => apply wp_ReadFile
  | |- wp (call (determineInstallLocation _)) _ _ =>
      apply wp_call, wpF_determineInstallLocation
  | |- wp (call (getVersionInfo _ _)) _ _ =>
      apply wp_call; unfold getVersionInfo; apply wpF_func
  | |- wp (call (copyFile _ _ _)) _ _ =>
      apply wp_call; unfold copyFile; apply wpF_func
  | |- wp (if ?b then _ else _) _ _ => destruct b eqn:?
  | |- wp (match ?x with _ => _ end) _ _ => destruct x eqn:?
  | |- wp (let _ := _ in _) _ _ => cbv zeta
  | |- _ => progress (lazy beta iota)
  end.

Lemma since_eq w evs evs' w' : since w evs w' -> evs = evs' -> since w evs' w'.
Proof. now intros H <-. Qed.

(** The events of a finished path, collected from the final world. *)
Ltac since_tac :=
  repeat first [ eapply since_emit | eapply since_snoc | eapply since_removeDeferred ];
  apply since_refl.

(** The same, against a list that is already written down. *)
Ltac since_is := eapply since_eq; [since_tac | simpl; reflexivity].

Ltac each_event tac :=
  simpl; repeat (apply Forall_cons_2; [tac|]); apply Forall_nil_2.

Ltac all_prints := each_event ltac:(eexists; reflexivity).

Lemma ends_with_rev {A} (l : list A) a b tl :
  rev l = b :: a :: tl -> exists pre, l = (pre ++ [a; b])%list.
Proof.
  intros H. exists (rev tl).
  rewrite <- (rev_involutive l), H. simpl. now rewrite <- app_assoc.
Qed.

(** ** Dry run *)

Lemma runUpdate_dry_run_wp E force w :
  wpF (runUpdate E force true) w (fun r w' =>
    fs w' = fs w
    /\ (exists evs, since w evs w' /\ Forall isPrint evs)
    /\ (r = None <-> dryRunSucceeds E force)).
Proof.
  unfold runUpdate, dryRunSucceeds. apply wpF_func. cbv zeta.
  destruct (version_GetRepoRoot E) as [repoRoot|e] eqn:Hrepo; lazy beta iota.
  2: { wp_step. split; [reflexivity|].
       split; [exists []; split; [since_tac|constructor]|].
       split; [discriminate | now intros (? & ? & _)]. }
  destruct (version_CheckStaleBinary E repoRoot)
    as [stale bcom rcom behind err] eqn:Hinfo.
  destruct err, stale, force; cbn [Error IsStale isNil negb andb].
  all: repeat wp_step.
  all: split; [reflexivity|].
  all: split; [eexists; split; [since_tac | all_prints] |].
  all: split;
    [ first [ discriminate
            | intros _; eexists; split; [reflexivity|]; rewrite ?Hinfo; simpl;
              first [left; done | right; eauto] ]
    | intros (r0 & Hr & H); simplify_eq; rewrite ?Hinfo in H; simpl in H;
      destruct H as [(?&?&?)|(?&?&?&?)]; simplify_eq; done ].
Qed.

(** A dry run outside any checkout of the sources ends with an error. *)
Lemma runUpdate_dry_run_reports_error :
  (runUpdate (Sample.withRepoRoot (Err "not in a gastown checkout") Sample.env)
     false true Sample.world).1
  = Some ("cannot locate gt source repository: not in a gastown checkout"
          ++ nl ++ nl
          ++ "Make sure you have the gastown repository cloned and set GT_ROOT if needed").
Proof. vm_compute. reflexivity. Qed.

(** C3 (amended). With [dryRun = true], [runUpdate] leaves the whole file
    system as it found it and does nothing but print: no subprocess, no
    file operation, no read of the confirmation answer, so the dry-run
    test comes before every mutating step and before the prompt.  It
    reports success exactly when the steps in front of the dry-run test
    let it (the repository is found, and either the binary is up to date
    and [force] is off, or the install location resolves and [go] is on
    the path); otherwise it returns that step's error. *)
Theorem runUpdate_dry_run (E : Env) (force : bool) (w w' : World) (r : GoError) :
  runUpdate E force true w = (r, w') ->
  fs w' = fs w
  /\ (exists evs, since w evs w' /\ Forall isPrint evs)
  /\ (r = None <-> dryRunSucceeds E force).
Proof. apply (wpF_run _ _ _ _ _ (runUpdate_dry_run_wp E force w)). Qed.

Lemma runUpdate_dry_run_witness :
  exists w',
    runUpdate Sample.env false true Sample.world = (None, w')
    /\ fs w' = fs Sample.world.
Proof.
  exists (runUpdate Sample.env false true Sample.world).2.
  assert (Hrun : runUpdate Sample.env false true Sample.world
                 = (None, (runUpdate Sample.env false true Sample.world).2))
    by (vm_compute; reflexivity).
  split; [exact Hrun|].
  exact (proj1 (runUpdate_dry_run _ _ _ _ _ Hrun)).
Defined.

(** ** Confirmation *)

Ltac prints_or_scan :=
  each_event ltac:(first [ left; eexists; reflexivity | right; reflexivity ]).

Ltac no_such_event H :=
  simpl in H; repeat (destruct H as [H|H]; try discriminate H); contradiction.

Lemma runUpdate_declined_wp E dry w :
  declined E = true ->
  wpF (runUpdate E false dry) w (fun r w' =>
    fs w' = fs w
    /\ exists evs,
         since w evs w'
         /\ Forall (fun e => isPrint e \/ e = EvScanln) evs
         /\ (In EvScanln evs ->
             r = None
             /\ exists pre, evs = (pre ++ [EvScanln; EvPrint ("Aborted." ++ nl)])%list)).
Proof.
  intros Hd. unfold runUpdate. apply wpF_func. cbn [negb].
  repeat wp_step.
  all: try (exfalso; unfold declined, response in Hd; congruence).
  all: split; [reflexivity|].
  all: eexists; split; [since_tac|]; split; [prints_or_scan|].
  all: simpl; intros Hin.
  all: try (no_such_event Hin).
  all: split; [reflexivity|]; eapply ends_with_rev; simpl; reflexivity.
Qed.

Lemma declined_iff E :
  declined E = true <-> response E = "n" \/ response E = "no".
Proof.
  unfold declined. rewrite orb_true_iff, !String.eqb_eq. reflexivity.
Qed.

(** C4. With [force = false] and an answer that is ["n"] or ["no"] after
    trimming and lowercasing, [runUpdate] changes no file and does nothing
    but print and read the answer (no subprocess at all, so no build);
    once the answer has been read it prints ["Aborted."] and returns
    [nil]. *)
Theorem runUpdate_declined (E : Env) (dry : bool) (w w' : World) (r : GoError) :
  runUpdate E false dry w = (r, w') ->
  response E = "n" \/ response E = "no" ->
  fs w' = fs w
  /\ exists evs,
       since w evs w'
       /\ Forall (fun e => isPrint e \/ e = EvScanln) evs
       /\ (In EvScanln evs ->
           r = None
           /\ exists pre, evs = (pre ++ [EvScanln; EvPrint ("Aborted." ++ nl)])%list).
Proof.
  intros Hrun Hno. apply declined_iff in Hno.
  exact (wpF_run _ _ _ _ _ (runUpdate_declined_wp E dry w Hno) Hrun).
Qed.

Lemma runUpdate_declined_witness :
  let E := Sample.withScan (Scanned "NO") Sample.env in
  (response E = "n" \/ response E = "no")
  /\ exists w',
       runUpdate E false false Sample.world = (None, w')
       /\ fs w' = fs Sample.world
       /\ In EvScanln (trace w').
Proof.
  intros E.
  assert (Hno : response E = "n" \/ response E = "no") by (right; reflexivity).
  split; [exact Hno|].
  exists (runUpdate E false false Sample.world).2.
  assert (Hrun : runUpdate E false false Sample.world
                 = (None, (runUpdate E false false Sample.world).2))
    by (vm_compute; reflexivity).
  split; [exact Hrun|].
  split; [exact (proj1 (runUpdate_declined E false _ _ _ Hrun Hno))|].
  vm_compute. tauto.
Defined.

Lemma proceedsAfterAnswer_spec evs :
  proceedsAfterAnswer evs ->
  In EvScanln evs ->
  exists pre repoRoot post,
    evs = (pre ++ [EvScanln; EvPrint ("" ++ nl); EvPrint ("Building gt..." ++ nl);
                   EvExec "git" ["describe"; "--tags"; "--always"; "--dirty"] repoRoot]
               ++ post)%list.
Proof.
  induction evs as [|e evs IH]; simpl; [tauto|].
  intros Hp [->|Hin].
  - destruct Hp as (repoRoot & post & ->). now exists [], repoRoot, post.
  - destruct e;
      try (destruct (IH Hp Hin) as (pre & repoRoot & post & ->);
           eexists (_ :: pre), repoRoot, post; reflexivity).
    destruct Hp as (repoRoot & post & ->). now exists [], repoRoot, post.
Qed.

Lemma runUpdate_not_declined_wp E dry w :
  declined E = false ->
  wpF (runUpdate E false dry) w (fun r w' =>
    exists evs, since w evs w' /\ proceedsAfterAnswer evs).
Proof.
  intros Hd. unfold runUpdate. apply wpF_func. cbn [negb].
  repeat wp_step.
  all: try (exfalso; unfold declined, response in Hd; congruence).
  all: eexists; split; [since_tac|]; simpl; eauto.
Qed.

Lemma response_unanswered E :
  fmt_Scanln E = ScanFailed \/ fmt_Scanln E = Scanned "" -> response E = "".
Proof. unfold response. now intros [-> | ->]. Qed.

(** C9. With [force = false], every answer other than ["n"] and ["no"]
    (after trimming and lowercasing) lets the update go ahead: right after
    the read of the answer come the blank line, ["Building gt..."] and the
    first git query.  A read that failed or hit the end of input stores
    nothing, the answer stays empty, and the update goes ahead as well. *)
Theorem runUpdate_proceeds_unless_declined (E : Env) (dry : bool)
    (w w' : World) (r : GoError) :
  runUpdate E false dry w = (r, w') ->
  fmt_Scanln E = ScanFailed \/ fmt_Scanln E = Scanned ""
  \/ (response E ≠ "n" /\ response E ≠ "no") ->
  (response E ≠ "n" /\ response E ≠ "no")
  /\ exists evs,
       since w evs w'
       /\ (In EvScanln evs ->
           exists pre repoRoot post,
             evs = (pre ++ [EvScanln; EvPrint ("" ++ nl);
                            EvPrint ("Building gt..." ++ nl);
                            EvExec "git" ["describe"; "--tags"; "--always"; "--dirty"]
                                   repoRoot]
                        ++ post)%list).
Proof.
  intros Hrun Hans.
  assert (Hresp : response E ≠ "n" /\ response E ≠ "no").
  { destruct Hans as [H|[H|H]]; [| |exact H];
      rewrite response_unanswered by auto; split; discriminate. }
  split; [exact Hresp|].
  assert (Hd : declined E = false).
  { apply not_true_is_false. rewrite declined_iff. tauto. }
  destruct (wpF_run _ _ _ _ _ (runUpdate_not_declined_wp E dry w Hd) Hrun)
    as (evs & Hsince & Hp).
  exists evs. split; [exact Hsince|]. now apply proceedsAfterAnswer_spec.
Qed.

Lemma runUpdate_proceeds_unless_declined_witness :
  let E := Sample.withScan ScanFailed Sample.env in
  let run := runUpdate E false false Sample.world in
  (fmt_Scanln E = ScanFailed \/ fmt_Scanln E = Scanned ""
   \/ (response E ≠ "n" /\ response E ≠ "no"))
  /\ In EvScanln (trace run.2)
  /\ exists evs,
       since Sample.world evs run.2
       /\ (In EvScanln evs ->
           exists pre repoRoot post,
             evs = (pre ++ [EvScanln; EvPrint ("" ++ nl);
                            EvPrint ("Building gt..." ++ nl);
                            EvExec "git" ["describe"; "--tags"; "--always"; "--dirty"]
                                   repoRoot]
                        ++ post)%list).
Proof.
  intros E run.
  assert (Hans : fmt_Scanln E = ScanFailed \/ fmt_Scanln E = Scanned ""
                 \/ (response E ≠ "n" /\ response E ≠ "no")) by (left; reflexivity).
  split; [exact Hans|].
  split; [vm_compute; tauto|].
  exact (proj2 (runUpdate_proceeds_unless_declined E false Sample.world run.2 run.1
                  (surjective_pairing _) Hans)).
Defined.

(** ** Version information *)

(** [getVersionInfo] runs its two git queries in order, whatever the
    first one answers, and builds its result from their outcomes. *)
Lemma getVersionInfo_run E repoDir w :
  exists fs1 out1 fs2 out2,
    subprocess E "git" ["describe"; "--tags"; "--always"; "--dirty"] repoDir (fs w)
      = (fs1, out1)
    /\ subprocess E "git" ["rev-parse"; "HEAD"] repoDir fs1 = (fs2, out2)
    /\ (getVersionInfo E repoDir w).2
       = mkWorld fs2
           (trace w ++ [EvExec "git" ["describe"; "--tags"; "--always"; "--dirty"] repoDir;
                        EvExec "git" ["rev-parse"; "HEAD"] repoDir])
    /\ (getVersionInfo E repoDir w).1
       = match out2 with
         | Err e => Err ("getting commit hash: " ++ e)
         | Ok commit =>
             Ok (mkVersionInfo
                   match out1 with Err _ => "dev" | Ok v => strings.TrimSpace v end
                   (strings.TrimSpace commit)
                   (time_Now_UTC_RFC3339 E))
         end.
Proof.
  unfold getVersionInfo, func, mbind, M_bind, Exec, Return. simpl.
  destruct (subprocess E "git" ["describe"; "--tags"; "--always"; "--dirty"] repoDir (fs w))
    as [fs1 out1] eqn:H1. simpl.
  destruct (subprocess E "git" ["rev-parse"; "HEAD"] repoDir fs1) as [fs2 out2] eqn:H2.
  exists fs1, out1, fs2, out2. rewrite <- app_assoc.
  destruct out2; simpl; auto.
Qed.

(** The step loop, giving up a path as soon as [cut] refutes it. *)
Ltac wp_run cut := repeat first [ solve [cut] | wp_step ].

Lemma runUpdate_no_commit_wp E force dry w :
  (forall dir f, exists e, (subprocess E "git" ["rev-parse"; "HEAD"] dir f).2 = Err e) ->
  wpF (runUpdate E force dry) w (fun r w' =>
    exists evs,
      since w evs w'
      /\ Forall (fun e => forall args dir, e ≠ EvExec "go" args dir) evs
      /\ (forall dir, In (EvExec "git" ["rev-parse"; "HEAD"] dir) evs ->
          exists e, r = Some ("getting version info: " ++ "getting commit hash: " ++ e))).
Proof.
  intros Hfail. unfold runUpdate. apply wpF_func.
  wp_run ltac:(idtac; match goal with
               | H : subprocess E "git" ["rev-parse"; "HEAD"] ?d ?f = (_, Ok _) |- _ =>
                   destruct (Hfail d f) as [e He]; rewrite H in He; discriminate He
               end).
  all: eexists; split; [since_tac|].
  all: split; [each_event ltac:(intros; discriminate)|].
  all: simpl; intros dir Hin.
  all: try (no_such_event Hin).
  all: eauto.
Qed.

(** C5. [getVersionInfo] asks git for the descriptive label and then for
    the commit hash.  A failed label query only makes the version ["dev"];
    the hash is queried all the same and the result is a success when the
    hash query succeeds.  A failed hash query is an error.  In
    [runUpdate], when the hash query fails, no [go] subprocess (neither
    [go generate] nor [go build]) is ever run, and a run that got as far
    as the hash query returns the error. *)
Theorem version_info_extraction (E : Env) :
  (forall repoDir w fs1 out1 fs2 out2,
     subprocess E "git" ["describe"; "--tags"; "--always"; "--dirty"] repoDir (fs w)
       = (fs1, out1) ->
     subprocess E "git" ["rev-parse"; "HEAD"] repoDir fs1 = (fs2, out2) ->
     trace (getVersionInfo E repoDir w).2
       = (trace w ++ [EvExec "git" ["describe"; "--tags"; "--always"; "--dirty"] repoDir;
                      EvExec "git" ["rev-parse"; "HEAD"] repoDir])%list
     /\ match out2 with
        | Err e => (getVersionInfo E repoDir w).1 = Err ("getting commit hash: " ++ e)
        | Ok commit =>
            exists v,
              (getVersionInfo E repoDir w).1 = Ok v
              /\ Commit v = strings.TrimSpace commit
              /\ (forall e, out1 = Err e -> Version v = "dev")
              /\ (forall label, out1 = Ok label -> Version v = strings.TrimSpace label)
        end)
  /\ (forall force dry w r w',
        runUpdate E force dry w = (r, w') ->
        (forall dir f,
           exists e, (subprocess E "git" ["rev-parse"; "HEAD"] dir f).2 = Err e) ->
        exists evs,
          since w evs w'
          /\ Forall (fun e => forall args dir, e ≠ EvExec "go" args dir) evs
          /\ (forall dir,
                In (EvExec "git" ["rev-parse"; "HEAD"] dir) evs ->
                exists e, r = Some ("getting version info: "
                                    ++ "getting commit hash: " ++ e))).
Proof.
  split.
  - intros repoDir w fs1 out1 fs2 out2 H1 H2.
    destruct (getVersionInfo_run E repoDir w)
      as (fs1' & out1' & fs2' & out2' & H1' & H2' & Hw & Hr).
    rewrite H1 in H1'. injection H1' as <- <-.
    rewrite H2 in H2'. injection H2' as <- <-.
    rewrite Hw, Hr. split; [reflexivity|].
    destruct out2 as [commit|e]; [|reflexivity].
    eexists. split; [reflexivity|]. simpl.
    repeat split; intros ? ->; reflexivity.
  - intros force dry w r w' Hrun Hfail.
    exact (wpF_run _ _ _ _ _ (runUpdate_no_commit_wp E force dry w Hfail) Hrun).
Qed.

Lemma version_info_extraction_witness :
  let E := Sample.withSubprocess Sample.noGit Sample.env in
  let run := runUpdate E true false Sample.world in
  (forall dir f, exists e, (subprocess E "git" ["rev-parse"; "HEAD"] dir f).2 = Err e)
  /\ run.1 = Some "getting version info: getting commit hash: exit status 128"
  /\ exists evs,
       since Sample.world evs run.2
       /\ Forall (fun e => forall args dir, e ≠ EvExec "go" args dir) evs.
Proof.
  intros E run.
  assert (Hfail : forall dir f,
             exists e, (subprocess E "git" ["rev-parse"; "HEAD"] dir f).2 = Err e)
    by (intros dir f; exists "exit status 128"; reflexivity).
  split; [exact Hfail|].
  split; [vm_compute; reflexivity|].
  destruct (proj2 (version_info_extraction E) true false Sample.world run.1 run.2
              (surjective_pairing _) Hfail) as (evs & Hs & Hgo & _).
  exists evs. split; [exact Hs | exact Hgo].
Defined.

(** ** Staleness *)

Ltac pick_event := simpl; repeat first [ left; reflexivity | right ].

(** The up-to-date report without [force]: the run ends there. *)
Lemma runUpdate_up_to_date_wp E dry w repoRoot :
  version_GetRepoRoot E = Ok repoRoot ->
  Error (version_CheckStaleBinary E repoRoot) = None ->
  IsStale (version_CheckStaleBinary E repoRoot) = false ->
  wpF (runUpdate E false dry) w (fun r w' =>
    r = None /\ fs w' = fs w
    /\ since w [EvPrint (foundMessage E repoRoot);
                EvPrint (upToDateMessage E (version_CheckStaleBinary E repoRoot));
                EvPrint ((nl ++ "Use --force to rebuild anyway") ++ nl)] w').
Proof.
  intros Hrepo Herr Hstale. unfold runUpdate. apply wpF_func. cbv zeta.
  rewrite Hrepo, Herr, Hstale. cbn [isNil negb andb].
  repeat wp_step.
  split; [reflexivity|]. split; [reflexivity|]. since_is.
Qed.

(** Every other outcome of the staleness check: the report, then on to
    the install location and the rebuild. *)
Lemma runUpdate_continues_wp E force dry w repoRoot :
  version_GetRepoRoot E = Ok repoRoot ->
  let info := version_CheckStaleBinary E repoRoot in
  let report :=
    match Error info with
    | Some _ => []
    | None =>
        if IsStale info then [EvPrint (staleWarning E info)]
        else [EvPrint (upToDateMessage E info); EvPrint ("" ++ nl)]
    end in
  force = true \/ Error info ≠ None \/ IsStale info = true ->
  wpF (runUpdate E force dry) w (fun r w' =>
    exists rest,
      since w (EvPrint (foundMessage E repoRoot) :: report ++ rest)%list w'
      /\ continuesToRebuild E repoRoot force dry r rest).
Proof.
  intros Hrepo info report Hcont. subst info report.
  unfold runUpdate, continuesToRebuild, buildConfiguration, foundMessage,
    upToDateMessage, staleWarning.
  apply wpF_func. cbv zeta. rewrite Hrepo. lazy beta iota.
  destruct (version_CheckStaleBinary E repoRoot)
    as [stale bcom rcom behind err] eqn:Hinfo.
  cbn [Error IsStale BinaryCommit] in *.
  destruct err, stale, force; cbn [isNil negb andb];
    try (exfalso; destruct Hcont as [?|[?|?]]; congruence).
  all: repeat wp_step.
  all: eexists; split; [since_is|].
  all: try (split; reflexivity).
  all: eexists; split; [reflexivity|].
  all: try (split; reflexivity).
  all: intros Hdry Hgo; try discriminate Hdry.
  all: try (exfalso; destruct Hgo as [Hgo|Hgo]; [discriminate Hgo|];
            unfold declined, response in Hgo; congruence).
  all: split; pick_event.
Qed.


(** C7. When the staleness check reports no error and a binary that is
    not stale, [runUpdate] prints the up-to-date report; with
    [force = false] it then prints the [--force] hint and returns [nil]
    with no file changed and nothing run.  When the check itself reports
    an error, nothing is printed about staleness and the run goes on to
    the install location and the rebuild. *)
Theorem runUpdate_staleness_check (E : Env) (force dry : bool)
    (w w' : World) (r : GoError) (repoRoot : string) :
  runUpdate E force dry w = (r, w') ->
  version_GetRepoRoot E = Ok repoRoot ->
  let info := version_CheckStaleBinary E repoRoot in
  (Error info = None -> IsStale info = false ->
     (exists rest,
        since w (EvPrint (foundMessage E repoRoot)
                 :: EvPrint (upToDateMessage E info) :: rest) w')
     /\ (force = false ->
         r = None /\ fs w' = fs w
         /\ since w [EvPrint (foundMessage E repoRoot);
                     EvPrint (upToDateMessage E info);
                     EvPrint ((nl ++ "Use --force to rebuild anyway") ++ nl)] w'))
  /\ (forall e,
        Error info = Some e ->
        exists rest,
          since w (EvPrint (foundMessage E repoRoot) :: rest) w'
          /\ continuesToRebuild E repoRoot force dry r rest).
Proof.
  intros Hrun Hrepo info. subst info. split.
  - intros Herr Hstale. destruct force.
    + pose proof (runUpdate_continues_wp E true dry w repoRoot Hrepo
                    (or_introl eq_refl)) as Hwp.
      apply (fun H => wpF_run _ _ _ _ _ H Hrun) in Hwp.
      destruct Hwp as (rest & Hsince & _).
      rewrite Herr, Hstale in Hsince. simpl in Hsince.
      split; [eauto | discriminate].
    + pose proof (wpF_run _ _ _ _ _
                    (runUpdate_up_to_date_wp E dry w repoRoot Hrepo Herr Hstale) Hrun)
        as (Hr & Hfs & Hsince).
      split; [eauto | auto].
  - intros e Herr.
    assert (Hcont : force = true
                    \/ Error (version_CheckStaleBinary E repoRoot) ≠ None
                    \/ IsStale (version_CheckStaleBinary E repoRoot) = true)
      by (right; left; congruence).
    pose proof (wpF_run _ _ _ _ _
                  (runUpdate_continues_wp E force dry w repoRoot Hrepo Hcont) Hrun)
      as (rest & Hsince & Hgo).
    rewrite Herr in Hsince. simpl in Hsince. eauto.
Qed.

Lemma runUpdate_staleness_check_witness :
  let info := mkStaleBinaryInfo false "abc123" "abc123" 0 None in
  let E := Sample.withStale info Sample.env in
  let run := runUpdate E false false Sample.world in
  version_GetRepoRoot E = Ok "/src/gastown"
  /\ run.1 = None
  /\ fs run.2 = fs Sample.world
  /\ since Sample.world
       [EvPrint (foundMessage E "/src/gastown");
        EvPrint (upToDateMessage E info);
        EvPrint ((nl ++ "Use --force to rebuild anyway") ++ nl)] run.2.
Proof.
  intros info E run.
  split; [reflexivity|].
  destruct (runUpdate_staleness_check E false false Sample.world run.2 run.1
              "/src/gastown" (surjective_pairing _) eq_refl) as [Hfresh _].
  destruct (Hfresh eq_refl eq_refl) as [_ Hquiet].
  exact (Hquiet eq_refl).
Defined.

(** A stale binary whose distance to the repository is not known
    ([CommitsBehind = 0]): the warning carries no count. *)
Lemma stale_warning_without_count :
  let info := mkStaleBinaryInfo true "abc000" "abc123" 0 None in
  let E := Sample.withStale info Sample.env in
  let run := runUpdate E true false Sample.world in
  Error info = None /\ IsStale info = true
  /\ run.1 = None
  /\ In (EvPrint (staleWarning E info)) (trace run.2)
  /\ staleMessage E info = "Binary is stale (built from abc000, repo at abc123)"
  /\ forallb (fun e => match e with
                       | EvPrint text => negb (strings.Contains text "commits behind")
                       | _ => true
                       end) (trace run.2) = true.
Proof.
  intros info E run.
  split; [reflexivity|]. split; [reflexivity|].
  split; [vm_compute; reflexivity|].
  split; [vm_compute; tauto|].
  split; vm_compute; reflexivity.
Qed.

(** C8 (amended). When the staleness check reports no error and a stale
    binary, [runUpdate] prints a warning and goes on with the update
    instead of returning.  The warning says how many commits the binary is
    behind when that count is positive; otherwise it only says that the
    binary is stale. *)
Theorem runUpdate_stale_warning (E : Env) (force dry : bool)
    (w w' : World) (r : GoError) (repoRoot : string) :
  runUpdate E force dry w = (r, w') ->
  version_GetRepoRoot E = Ok repoRoot ->
  let info := version_CheckStaleBinary E repoRoot in
  Error info = None ->
  IsStale info = true ->
  (exists rest,
     since w (EvPrint (foundMessage E repoRoot)
              :: EvPrint (staleWarning E info) :: rest) w'
     /\ continuesToRebuild E repoRoot force dry r rest)
  /\ (0 < CommitsBehind info ->
      staleMessage E info
      = "Binary is " ++ pretty (CommitsBehind info) ++ " commits behind (built from "
        ++ version_ShortCommit E (BinaryCommit info) ++ ", repo at "
        ++ version_ShortCommit E (RepoCommit info) ++ ")")
  /\ (CommitsBehind info <= 0 ->
      staleMessage E info
      = "Binary is stale (built from "
        ++ version_ShortCommit E (BinaryCommit info) ++ ", repo at "
        ++ version_ShortCommit E (RepoCommit info) ++ ")").
Proof.
  intros Hrun Hrepo info Herr Hstale. subst info.
  split; [|split].
  - assert (Hcont : force = true
                    \/ Error (version_CheckStaleBinary E repoRoot) ≠ None
                    \/ IsStale (version_CheckStaleBinary E repoRoot) = true)
      by auto.
    pose proof (wpF_run _ _ _ _ _
                  (runUpdate_continues_wp E force dry w repoRoot Hrepo Hcont) Hrun)
      as (rest & Hsince & Hgo).
    rewrite Herr, Hstale in Hsince. simpl in Hsince. eauto.
  - intros Hpos. unfold staleMessage.
    apply Z.ltb_lt in Hpos. now rewrite Hpos.
  - intros Hneg. unfold staleMessage.
    apply Z.ltb_ge in Hneg. now rewrite Hneg.
Qed.

(** The binary is three commits behind: the warning says so, no question
    is asked about rebuilding an up-to-date binary, and the build starts. *)
Lemma runUpdate_stale_warning_witness :
  let E := Sample.env in
  let run := runUpdate E false false Sample.world in
  version_GetRepoRoot E = Ok "/src/gastown"
  /\ Error Sample.stale3 = None /\ IsStale Sample.stale3 = true
  /\ 0 < CommitsBehind Sample.stale3
  /\ staleMessage E Sample.stale3
     = "Binary is 3 commits behind (built from abc000, repo at abc123)"
  /\ exists rest,
       since Sample.world (EvPrint (foundMessage E "/src/gastown")
                           :: EvPrint (staleWarning E Sample.stale3) :: rest) run.2
       /\ continuesToRebuild E "/src/gastown" false false run.1 rest.
Proof.
  intros E run.
  assert (Hpos : 0 < CommitsBehind Sample.stale3) by reflexivity.
  destruct (runUpdate_stale_warning E false false Sample.world run.2 run.1
              "/src/gastown" (surjective_pairing _) eq_refl eq_refl eq_refl)
    as (Hgo & Hcount & _).
  split; [reflexivity|]. split; [reflexivity|]. split; [reflexivity|].
  split; [exact Hpos|].
  split; [vm_compute; reflexivity | exact Hgo].
Defined.

(** ** The install directory *)

Lemma MkdirAll_Ok F path perm fsys fsys' :
  os.MkdirAll F path perm fsys = (fsys', None) ->
  path ∈ dirs fsys' /\ files fsys' = files fsys.
Proof.
  unfold os.MkdirAll. repeat case_match; try discriminate.
  intros Heq. injection Heq as <-. split; [|reflexivity]. cbn [dirs].
  set_solver.
Qed.

Lemma copyFile_keeps_dirs E src dst w :
  dirs (fs (copyFile E src dst w).2) = dirs (fs w).
Proof.
  destruct (copyFile_run E src dst w) as [e Hr|data fs1 e Hr Hw|data fs1 e Hr Hw Hrn
                                         |data fs1 fs2 Hr Hw Hrn]; simpl.
  - reflexivity.
  - eapply WriteFile_dirs; eauto.
  - pose proof Hw as Hd. apply WriteFile_dirs in Hd.
    apply WriteFile_Ok in Hw as (mode & Hfiles & _).
    erewrite Remove_file by (rewrite Hfiles; apply lookup_insert_eq).
    exact Hd.
  - apply Rename_Ok in Hrn as (f & _ & _ & ->). eapply WriteFile_dirs; eauto.
Qed.

Lemma copyFile_never_mkdir E src dst w evs :
  since w evs (copyFile E src dst w).2 ->
  Forall (fun e => forall path perm, e ≠ EvMkdirAll path perm) evs.
Proof.
  unfold since.
  destruct (copyFile_run E src dst w); simpl; intros Hs;
    apply app_inv_head in Hs; subst evs;
    repeat (apply Forall_cons_2; [intros; discriminate|]); apply Forall_nil_2.
Qed.

Lemma writesFollowMkdir_spec installPath evs :
  writesFollowMkdir installPath evs ->
  forall pre name data perm post,
    evs = (pre ++ EvWriteFile name data perm :: post)%list ->
    name = installPath ++ ".new"
    /\ exists pre' src,
         pre = (pre' ++ [EvMkdirAll (filepath.Dir installPath) perm_0755;
                         EvReadFile src])%list.
Proof.
  remember (length evs) as n eqn:Hn. revert evs Hn.
  induction n as [n IH] using lt_wf_ind. intros evs -> Hw pre name data perm post ->.
  destruct pre as [|e pre]; simpl in Hw; [contradiction|].
  assert (Hskip : writesFollowMkdir installPath (pre ++ EvWriteFile name data perm :: post) ->
                  name = installPath ++ ".new"
                  /\ exists pre' src,
                       (e :: pre) = (pre' ++ [EvMkdirAll (filepath.Dir installPath) perm_0755;
                                              EvReadFile src])%list).
  { intros Hrest.
    destruct (IH (length (pre ++ EvWriteFile name data perm :: post)))
      with (evs := (pre ++ EvWriteFile name data perm :: post)%list)
           (pre := pre) (name := name) (data := data) (perm := perm) (post := post)
      as (Hname & pre' & src & ->); simpl; try lia; auto.
    split; [exact Hname|]. now exists (e :: pre'), src. }
  destruct e; try (apply Hskip; exact Hw); try contradiction.
  destruct pre as [|e1 pre]; simpl in Hw; [contradiction|].
  destruct e1; try (apply Hskip; exact Hw); try contradiction.
  destruct pre as [|e2 pre]; simpl in Hw.
  - destruct Hw as [(-> & -> & ->) _]. split; [reflexivity|]. now exists [], name0.
  - destruct e2; try (apply Hskip; exact Hw).
    destruct Hw as [_ Hw].
    destruct (IH (length (pre ++ EvWriteFile name data perm :: post)))
      with (evs := (pre ++ EvWriteFile name data perm :: post)%list)
           (pre := pre) (name := name) (data := data) (perm := perm) (post := post)
      as (Hname & pre' & src & ->); simpl; try (rewrite !length_app; simpl; lia); auto.
    split; [exact Hname|].
    now exists (EvMkdirAll path perm0 :: EvReadFile name0
                :: EvWriteFile name1 data0 perm1 :: pre'), src.
Qed.

Lemma runUpdate_install_order_wp E force dry w :
  wpF (runUpdate E force dry) w (fun r w' =>
    exists evs, since w evs w' /\ writesFollowMkdir (installLocation E).1 evs).
Proof.
  unfold runUpdate. apply wpF_func.
  repeat wp_step.
  all: eexists; split; [since_tac|].
  all: cbn [writesFollowMkdir app fst]; auto.
Qed.

Lemma dirPart_tmp (dst : string) : filepath.dirPart (dst ++ ".new") = filepath.dirPart dst.
Proof. induction dst as [|c dst IH]; simpl; [reflexivity | now rewrite IH]. Qed.

(** The temporary file lives in the destination's directory. *)
Lemma Dir_tmp (dst : string) : filepath.Dir (dst ++ ".new") = filepath.Dir dst.
Proof. unfold filepath.Dir. now rewrite dirPart_tmp. Qed.

Lemma copyFile_needs_parent E src dst w f :
  files (fs w) !! src = Some f ->
  fault_read (faults E) src = false ->
  filepath.Dir dst ∉ dirs (fs w) ->
  exists e, (copyFile E src dst w).1 = Some ("writing temp file: " ++ e).
Proof.
  intros Hf Hnofault Hparent.
  assert (Hread : os.ReadFile (faults E) src (fs w) = Ok (f_data f))
    by (unfold os.ReadFile; now rewrite Hf, Hnofault).
  assert (Hwrite : exists e,
             os.WriteFile (faults E) (umask E) (dst ++ ".new") (f_data f) perm_0755 (fs w)
             = (fs w, Some e)).
  { unfold os.WriteFile. rewrite Dir_tmp.
    case_bool_decide; [eauto|].
    rewrite (bool_decide_eq_false_2 _ Hparent). simpl. eauto. }
  destruct Hwrite as [e Hwrite].
  destruct (copyFile_run E src dst w) as [e' Hr|data fs1 e' Hr Hw|data fs1 e' Hr Hw Hrn
                                         |data fs1 fs2 Hr Hw Hrn];
    rewrite Hread in Hr; simplify_eq; rewrite Hwrite in Hw; simplify_eq.
  eauto.
Qed.

(** C2 (amended). [copyFile] does not create the destination's directory:
    it never calls [MkdirAll], leaves the set of directories as it is, and
    fails with the write error when the directory is missing.  The
    directory is made by the caller: in every run of [runUpdate], each
    write of a file is the write of [installPath ++ ".new"] and comes
    directly after [MkdirAll(filepath.Dir(installPath), 0755)] and the read
    of the built binary; a successful [MkdirAll] leaves that directory in
    place. *)
Theorem install_directory_created_by_caller (E : Env) :
  (forall src dst w,
     dirs (fs (copyFile E src dst w).2) = dirs (fs w)
     /\ forall evs,
          since w evs (copyFile E src dst w).2 ->
          Forall (fun e => forall path perm, e ≠ EvMkdirAll path perm) evs)
  /\ (forall src dst w f,
        files (fs w) !! src = Some f ->
        fault_read (faults E) src = false ->
        filepath.Dir dst ∉ dirs (fs w) ->
        exists e, (copyFile E src dst w).1 = Some ("writing temp file: " ++ e))
  /\ (forall force dry w r w',
        runUpdate E force dry w = (r, w') ->
        exists evs,
          since w evs w'
          /\ forall pre name data perm post,
               evs = (pre ++ EvWriteFile name data perm :: post)%list ->
               name = (installLocation E).1 ++ ".new"
               /\ exists pre' src,
                    pre = (pre' ++ [EvMkdirAll (filepath.Dir (installLocation E).1) perm_0755;
                                    EvReadFile src])%list)
  /\ (forall path perm fsys fsys',
        os.MkdirAll (faults E) path perm fsys = (fsys', None) ->
        path ∈ dirs fsys').
Proof.
  split; [|split; [|split]].
  - intros src dst w. split; [apply copyFile_keeps_dirs|].
    intros evs. apply copyFile_never_mkdir.
  - intros src dst w f. apply copyFile_needs_parent.
  - intros force dry w r w' Hrun.
    destruct (wpF_run _ _ _ _ _ (runUpdate_install_order_wp E force dry w) Hrun)
      as (evs & Hsince & Horder).
    exists evs. split; [exact Hsince|].
    intros pre name data perm post. now apply writesFollowMkdir_spec.
  - intros path perm fsys fsys' Hmk. now apply MkdirAll_Ok in Hmk.
Qed.

(** A first installation: [/usr/local/bin] does not exist, [runUpdate]
    makes it, and only then is the temporary file written. *)
Lemma install_directory_created_by_caller_witness :
  let w := mkWorld Sample.freshDisk [] in
  let run := runUpdate Sample.env true false w in
  (filepath.Dir "/usr/local/bin/gt" ∉ dirs (fs w))
  /\ run.1 = None
  /\ exists pre post,
       trace run.2
       = (pre ++ EvWriteFile "/usr/local/bin/gt.new" "ELF" perm_0755 :: post)%list
       /\ exists pre' src,
            pre = (pre' ++ [EvMkdirAll "/usr/local/bin" perm_0755; EvReadFile src])%list.
Proof.
  intros w run.
  split; [apply (proj1 (bool_decide_eq_false _)); vm_compute; reflexivity|].
  split; [vm_compute; reflexivity|].
  destruct (proj1 (proj2 (proj2 (install_directory_created_by_caller Sample.env)))
              true false w run.1 run.2 (surjective_pairing _)) as (evs & Hsince & Horder).
  change (trace run.2 = evs) in Hsince.
  assert (Hsplit : trace run.2
                   = (take 18 (trace run.2)
                      ++ EvWriteFile "/usr/local/bin/gt.new" "ELF" perm_0755
                      :: drop 19 (trace run.2))%list)
    by (vm_compute; reflexivity).
  exists (take 18 (trace run.2)), (drop 19 (trace run.2)).
  split; [exact Hsplit|].
  rewrite Hsince in Hsplit at 1.
  exact (proj2 (Horder _ _ _ _ _ Hsplit)).
Defined.

(** * Further properties of the command *)

(** ** The effects of a run, in order *)

Lemma runUpdate_effects_wp E force dry w :
  wpF (runUpdate E force dry) w (fun r w' =>
    exists evs,
      since w evs w'
      /\ Effects (repoRootOf E) (installLocation E).1 (tmpBinaryPath E)
           (runtime_GOOS E) (List.filter isEffect evs)).
Proof.
  unfold runUpdate, repoRootOf, tmpBinaryPath. apply wpF_func.
  repeat wp_step.
  all: eexists; split; [since_tac|].
  all: simpl.
  all: try (econstructor; fail).
  all: econstructor;
    first [ apply String.eqb_neq; assumption | apply String.eqb_eq; assumption ].
Qed.

(** X1. The subprocesses and file operations of any run of [runUpdate]
    form one of eleven sequences: the two git queries, [go generate],
    [go build], the check of the build output, the creation of the install
    directory and the three steps of the copy, each only after the one
    before it; [codesign] only on darwin and only after the rename; and,
    once the build was started, the removal of the build output as the
    last effect. *)
Theorem runUpdate_effects (E : Env) (force dry : bool) (w w' : World)
    (r : GoError) :
  runUpdate E force dry w = (r, w') ->
  exists evs,
    since w evs w'
    /\ Effects (repoRootOf E) (installLocation E).1 (tmpBinaryPath E)
         (runtime_GOOS E) (List.filter isEffect evs).
Proof. apply (wpF_run _ _ _ _ _ (runUpdate_effects_wp E force dry w)). Qed.

Lemma runUpdate_effects_witness :
  let run := runUpdate Sample.env true false (mkWorld Sample.freshDisk []) in
  exists evs,
    since (mkWorld Sample.freshDisk []) evs run.2
    /\ Effects "/src/gastown" "/usr/local/bin/gt" "/tmp/gt-build-1700000000" "linux"
         (List.filter isEffect evs).
Proof.
  intros run.
  exact (runUpdate_effects Sample.env true false _ run.2 run.1 (surjective_pairing _)).
Defined.

Lemma since_unique w evs1 evs2 w' : since w evs1 w' -> since w evs2 w' -> evs1 = evs2.
Proof. unfold since. intros H1 H2. rewrite H1 in H2. now apply app_inv_head in H2. Qed.

Ltac split_event H :=
  simpl in H; repeat (destruct H as [H|H]; [try discriminate H|]); try contradiction.

Lemma Remove_gone name fsys : files (os.Remove name fsys).1 !! name = None.
Proof.
  unfold os.Remove. destruct (files fsys !! name) eqn:Hf; simpl.
  - apply lookup_delete_eq.
  - repeat case_match; simpl; exact Hf.
Qed.

Lemma Remove_other name fsys other :
  other ≠ name -> files (os.Remove name fsys).1 !! other = files fsys !! other.
Proof.
  intros Hne. unfold os.Remove. repeat case_match; simpl; try reflexivity.
  now apply lookup_delete_ne.
Qed.

Lemma removeDeferred_fs name w :
  fs (removeDeferred name w) = (os.Remove name (fs w)).1.
Proof.
  unfold removeDeferred, Remove, fsOp. now destruct (os.Remove name (fs w)).
Qed.

(** ** The build output is cleaned up *)

Lemma runUpdate_cleanup_wp E force dry w :
  wpF (runUpdate E force dry) w (fun r w' =>
    exists evs,
      since w evs w'
      /\ (forall args dir,
            In (EvExec "go" ("build" :: args) dir) evs ->
            last evs = Some (EvRemove (tmpBinaryPath E))
            /\ files (fs w') !! tmpBinaryPath E = None)).
Proof.
  unfold runUpdate, tmpBinaryPath.
  set (tmp := filepath.Join [os_TempDir E; _]).
  apply wpF_func.
  repeat wp_step.
  all: eexists; split; [since_tac|].
  all: intros args dir Hin.
  all: try (no_such_event Hin).
  all: split; [reflexivity|].
  all: rewrite removeDeferred_fs; apply Remove_gone.
Qed.

(** X2. Once [go build] has been started, every way out of [runUpdate]
    (build failure, missing output, failed installation, success) ends
    with the removal of the temporary build output, and no file is left
    at that path. *)
Theorem runUpdate_build_output_removed (E : Env) (force dry : bool)
    (w w' : World) (r : GoError) (evs : list Event) (args : list string)
    (dir : string) :
  runUpdate E force dry w = (r, w') ->
  since w evs w' ->
  In (EvExec "go" ("build" :: args) dir) evs ->
  last evs = Some (EvRemove (tmpBinaryPath E))
  /\ files (fs w') !! tmpBinaryPath E = None.
Proof.
  intros Hrun Hsince Hin.
  destruct (wpF_run _ _ _ _ _ (runUpdate_cleanup_wp E force dry w) Hrun)
    as (evs' & Hsince' & H).
  rewrite (since_unique _ _ _ _ Hsince Hsince') in *. eauto.
Qed.

Lemma runUpdate_build_output_removed_witness :
  let E := Sample.withSubprocess Scenario.buildFails Sample.env in
  let w := mkWorld Sample.freshDisk [] in
  let run := runUpdate E true false w in
  run.1 = Some "go build failed: exit status 2"
  /\ last (trace run.2) = Some (EvRemove "/tmp/gt-build-1700000000")
  /\ files (fs run.2) !! "/tmp/gt-build-1700000000" = None.
Proof.
  intros E w run.
  split; [vm_compute; reflexivity|].
  assert (Hin : In (EvExec "go" ("build" :: ["-ldflags";
                      ldflagsOf (mkVersionInfo "v0.2.1-3-gabc123d"
                                   "abc123d4e5f60718293a4b5c6d7e8f9012345678"
                                   "2023-11-14T22:13:20Z");
                      "-o"; "/tmp/gt-build-1700000000"; "./cmd/gt"]) "/src/gastown")
                   (trace run.2)) by (vm_compute; tauto).
  exact (runUpdate_build_output_removed E true false w run.2 run.1 (trace run.2) _ _
           (surjective_pairing _) eq_refl Hin).
Defined.

(** ** Failing build stages *)

Lemma runUpdate_generate_failed_wp E force dry w :
  (forall dir f, exists e, (subprocess E "go" ["generate"; "./..."] dir f).2 = Err e) ->
  wpF (runUpdate E force dry) w (fun r w' =>
    exists evs,
      since w evs w'
      /\ Forall (fun e => isFileOp e = false
                          /\ forall args dir, e ≠ EvExec "go" ("build" :: args) dir) evs
      /\ (forall dir, In (evGenerate dir) evs ->
          exists e, r = Some ("go generate failed: " ++ e))).
Proof.
  intros Hfail. unfold runUpdate, evGenerate. apply wpF_func.
  wp_run ltac:(idtac; match goal with
               | H : subprocess E "go" ["generate"; "./..."] ?d ?f = (_, Ok _) |- _ =>
                   destruct (Hfail d f) as [e He]; rewrite H in He; discriminate He
               end).
  all: eexists; split; [since_tac|].
  all: split; [each_event ltac:(split; [reflexivity | intros; discriminate])|].
  all: intros dir Hin.
  all: try (no_such_event Hin).
  all: eauto.
Qed.

(** X3. When [go generate] fails, [runUpdate] never starts [go build]
    and performs no file operation at all (nothing is checked, created,
    written, renamed or removed); a run that got as far as [go generate]
    returns the generate error. *)
Theorem runUpdate_generate_failure (E : Env) (force dry : bool)
    (w w' : World) (r : GoError) (evs : list Event) :
  runUpdate E force dry w = (r, w') ->
  since w evs w' ->
  (forall dir f, exists e, (subprocess E "go" ["generate"; "./..."] dir f).2 = Err e) ->
  Forall (fun e => isFileOp e = false
                   /\ forall args dir, e ≠ EvExec "go" ("build" :: args) dir) evs
  /\ (forall dir, In (evGenerate dir) evs ->
      exists e, r = Some ("go generate failed: " ++ e)).
Proof.
  intros Hrun Hsince Hfail.
  destruct (wpF_run _ _ _ _ _ (runUpdate_generate_failed_wp E force dry w Hfail) Hrun)
    as (evs' & Hsince' & H).
  now rewrite (since_unique _ _ _ _ Hsince Hsince').
Qed.

Lemma runUpdate_generate_failure_witness :
  let E := Sample.withSubprocess Scenario.generateFails Sample.env in
  let run := runUpdate E true false Sample.world in
  (forall dir f, exists e, (subprocess E "go" ["generate"; "./..."] dir f).2 = Err e)
  /\ run.1 = Some "go generate failed: exit status 1"
  /\ Forall (fun e => isFileOp e = false
                      /\ forall args dir, e ≠ EvExec "go" ("build" :: args) dir)
       (trace run.2).
Proof.
  intros E run.
  assert (Hfail : forall dir f,
             exists e, (subprocess E "go" ["generate"; "./..."] dir f).2 = Err e)
    by (intros dir f; exists "exit status 1"; reflexivity).
  split; [exact Hfail|].
  split; [vm_compute; reflexivity|].
  exact (proj1 (runUpdate_generate_failure E true false Sample.world run.2 run.1
                  (trace run.2) (surjective_pairing _) eq_refl Hfail)).
Defined.

Lemma runUpdate_build_failed_wp E force dry w :
  (forall args dir f,
     exists e, (subprocess E "go" ("build" :: args) dir f).2 = Err e) ->
  wpF (runUpdate E force dry) w (fun r w' =>
    exists evs,
      since w evs w'
      /\ Forall (fun e => isInstallOp e = false) evs
      /\ (forall args dir, In (EvExec "go" ("build" :: args) dir) evs ->
          exists e, r = Some ("go build failed: " ++ e))).
Proof.
  intros Hfail. unfold runUpdate.
  set (tmp := filepath.Join [os_TempDir E; _]).
  apply wpF_func.
  wp_run ltac:(idtac; match goal with
               | H : subprocess E "go" ("build" :: ?a) ?d ?f = (_, Ok _) |- _ =>
                   destruct (Hfail a d f) as [e He]; rewrite H in He; discriminate He
               end).
  all: eexists; split; [since_tac|].
  all: split; [each_event ltac:(reflexivity)|].
  all: intros args dir Hin.
  all: try (no_such_event Hin).
  all: eauto.
Qed.

(** X4. When [go build] fails, nothing of the installation happens: the
    build output is not looked for, the install directory is not created,
    nothing is read, written or renamed and [codesign] is not run; a run
    that got as far as [go build] returns the build error. *)
Theorem runUpdate_build_failure (E : Env) (force dry : bool)
    (w w' : World) (r : GoError) (evs : list Event) :
  runUpdate E force dry w = (r, w') ->
  since w evs w' ->
  (forall args dir f,
     exists e, (subprocess E "go" ("build" :: args) dir f).2 = Err e) ->
  Forall (fun e => isInstallOp e = false) evs
  /\ (forall args dir, In (EvExec "go" ("build" :: args) dir) evs ->
      exists e, r = Some ("go build failed: " ++ e)).
Proof.
  intros Hrun Hsince Hfail.
  destruct (wpF_run _ _ _ _ _ (runUpdate_build_failed_wp E force dry w Hfail) Hrun)
    as (evs' & Hsince' & H).
  now rewrite (since_unique _ _ _ _ Hsince Hsince').
Qed.

Lemma runUpdate_build_failure_witness :
  let E := Sample.withSubprocess Scenario.buildFails Sample.env in
  let run := runUpdate E true false Sample.world in
  (forall args dir f,
     exists e, (subprocess E "go" ("build" :: args) dir f).2 = Err e)
  /\ run.1 = Some "go build failed: exit status 2"
  /\ Forall (fun e => isInstallOp e = false) (trace run.2)
  /\ files (fs run.2) !! "/usr/local/bin/gt" = files Sample.disk !! "/usr/local/bin/gt".
Proof.
  intros E run.
  assert (Hfail : forall args dir f,
             exists e, (subprocess E "go" ("build" :: args) dir f).2 = Err e)
    by (intros args dir f; exists "exit status 2"; reflexivity).
  split; [exact Hfail|].
  split; [vm_compute; reflexivity|].
  split; [|vm_compute; reflexivity].
  exact (proj1 (runUpdate_build_failure E true false Sample.world run.2 run.1
                  (trace run.2) (surjective_pairing _) eq_refl Hfail)).
Defined.

(** ** The checks in front of the build *)

Lemma runUpdate_preflight_wp E force dry w msg :
  wpF (runUpdate E force dry) w (fun r w' =>
    preflightError E = Some msg ->
    fs w' = fs w
    /\ exists evs,
         since w evs w'
         /\ Forall isPrint evs
         /\ (r = Some msg \/ (r = None /\ upToDateStop E force))).
Proof.
  unfold runUpdate, preflightError, upToDateStop. apply wpF_func. cbv zeta.
  destruct (version_GetRepoRoot E) as [repoRoot|e] eqn:Hrepo; lazy beta iota.
  2: { wp_step. intros [= <-]. split; [reflexivity|].
       exists []. split; [since_tac|]. split; [constructor|]. now left. }
  destruct (version_CheckStaleBinary E repoRoot)
    as [stale bcom rcom behind err] eqn:Hinfo.
  destruct err, stale, force; cbn [Error IsStale isNil negb andb].
  all: wp_run ltac:(idtac; match goal with
                    | Hl : exec_LookPath _ "go" = Ok _ |- _ =>
                        intros Hpre; discriminate Hpre
                    end).
  all: intros Hpre.
  all: split; [reflexivity|].
  all: eexists; split; [since_tac|]; split; [all_prints|].
  all: first [ left; congruence
             | right; split; [reflexivity|]; eexists; rewrite Hinfo; simpl; eauto ].
Qed.

(** X5. When the repository cannot be located, the install location
    cannot be resolved or [go] is not on the path, [runUpdate] only
    prints, whatever the flags: no subprocess, no read of the answer, and
    the file system stays as it is.  It returns the error of the first
    failing check, unless it already stopped with success because the
    binary is up to date and [force] is off. *)
Theorem runUpdate_preflight_failure (E : Env) (force dry : bool)
    (w w' : World) (r : GoError) (msg : string) :
  runUpdate E force dry w = (r, w') ->
  preflightError E = Some msg ->
  fs w' = fs w
  /\ exists evs,
       since w evs w'
       /\ Forall isPrint evs
       /\ (r = Some msg \/ (r = None /\ upToDateStop E force)).
Proof.
  intros Hrun. exact (wpF_run _ _ _ _ _ (runUpdate_preflight_wp E force dry w msg) Hrun).
Qed.

Lemma runUpdate_preflight_failure_witness :
  let run := runUpdate Scenario.noGo true false Sample.world in
  exists msg,
    preflightError Scenario.noGo = Some msg
    /\ run.1 = Some msg
    /\ fs run.2 = fs Sample.world.
Proof.
  intros run.
  assert (Hpre : exists msg, preflightError Scenario.noGo = Some msg /\ run.1 = Some msg)
    by (eexists; split; vm_compute; reflexivity).
  destruct Hpre as (msg & Hpre & Hr). exists msg.
  split; [exact Hpre|]. split; [exact Hr|].
  exact (proj1 (runUpdate_preflight_failure Scenario.noGo true false Sample.world
                  run.2 run.1 msg (surjective_pairing _) Hpre)).
Defined.

(** ** The answer matters only when it is asked for *)

(** X6. With [force] on, and also in a dry run, the outcome of
    [runUpdate] (result, files and everything it prints and runs) does not
    depend on what standard input holds. *)
Theorem runUpdate_ignores_answer (E : Env) (s : ScanOutcome) (flag : bool)
    (w : World) :
  runUpdate (setScanln s E) true flag w = runUpdate E true flag w
  /\ runUpdate (setScanln s E) flag true w = runUpdate E flag true w.
Proof. split; [reflexivity | destruct flag; reflexivity]. Qed.

(** ** Codesigning *)

Lemma runUpdate_codesign_wp E force dry w :
  wpF (runUpdate E force dry) w (fun r w' =>
    exists evs,
      since w evs w'
      /\ (forall args dir,
            In (EvExec "codesign" args dir) evs ->
            r = None /\ runtime_GOOS E = "darwin"
            /\ args = ["-s"; "-"; "-f"; (installLocation E).1] /\ dir = "")
      /\ (forall old new,
            In (EvRename old new) evs -> r = None -> runtime_GOOS E = "darwin" ->
            In (evCodesign (installLocation E).1) evs)).
Proof.
  unfold runUpdate, evCodesign.
  set (tmp := filepath.Join [os_TempDir E; _]).
  apply wpF_func.
  repeat wp_step.
  all: eexists; split; [since_tac|].
  all: split; [intros args dir Hin | intros old new Hin Hr Hgoos].
  all: try (no_such_event Hin).
  all: try discriminate Hr.
  all: try (split_event Hin; injection Hin as <- <-;
            repeat split; try reflexivity; now apply String.eqb_eq).
  all: try (exfalso;
            match goal with
            | Hb : (runtime_GOOS _ =? "darwin")%string = false |- _ =>
                rewrite Hgoos in Hb; discriminate Hb
            end).
  all: try pick_event.
Qed.

(** X7. [codesign] is best effort: it is run only on darwin, only on the
    installed binary, and a run in which it was started returns [nil]
    whatever [codesign] answered.  On darwin every successful installation
    is followed by it. *)
Theorem runUpdate_codesign_best_effort (E : Env) (force dry : bool)
    (w w' : World) (r : GoError) (evs : list Event) :
  runUpdate E force dry w = (r, w') ->
  since w evs w' ->
  (forall args dir,
     In (EvExec "codesign" args dir) evs ->
     r = None /\ runtime_GOOS E = "darwin"
     /\ args = ["-s"; "-"; "-f"; (installLocation E).1] /\ dir = "")
  /\ (forall old new,
        In (EvRename old new) evs -> r = None -> runtime_GOOS E = "darwin" ->
        In (evCodesign (installLocation E).1) evs).
Proof.
  intros Hrun Hsince.
  destruct (wpF_run _ _ _ _ _ (runUpdate_codesign_wp E force dry w) Hrun)
    as (evs' & Hsince' & H).
  now rewrite (since_unique _ _ _ _ Hsince Hsince').
Qed.

Lemma runUpdate_codesign_best_effort_witness :
  let E := Scenario.darwin in
  let w := mkWorld (mkFileSys ∅ {[ "/"; "/var/folders/zz/T" ]}) [] in
  let run := runUpdate E true false w in
  (subprocess E "codesign" ["-s"; "-"; "-f"; "/usr/local/bin/gt"] "" (fs run.2)).2
  = Err "exit status 1"
  /\ In (EvExec "codesign" ["-s"; "-"; "-f"; "/usr/local/bin/gt"] "") (trace run.2)
  /\ run.1 = None.
Proof.
  intros E w run.
  split; [reflexivity|].
  assert (Hin : In (EvExec "codesign" ["-s"; "-"; "-f"; "/usr/local/bin/gt"] "")
                   (trace run.2)) by (vm_compute; tauto).
  split; [exact Hin|].
  exact (proj1 (proj1 (runUpdate_codesign_best_effort E true false w run.2 run.1
                         (trace run.2) (surjective_pairing _) eq_refl) _ _ Hin)).
Defined.

(** ** A successful run installs what was built *)

(** The files after a write of [dst ++ ".new"], its rename onto [dst] and
    the removal of [build]. *)
Lemma installed_files F u dst data perm fs0 fs1 fs2 build :
  os.WriteFile F u (dst ++ ".new") data perm fs0 = (fs1, None) ->
  os.Rename F (dst ++ ".new") dst fs1 = (fs2, None) ->
  dst ≠ build ->
  (exists mode, files (os.Remove build fs2).1 !! dst = Some (mkFile data mode))
  /\ files (os.Remove build fs2).1 !! (dst ++ ".new") = None
  /\ files (os.Remove build fs2).1 !! build = None.
Proof.
  intros Hw Hrn Hne.
  apply WriteFile_Ok in Hw as (mode & Hf1 & _).
  apply Rename_Ok in Hrn as (f & Hold & Hf2 & _).
  rewrite Hf1, lookup_insert_eq in Hold. injection Hold as <-.
  split; [|split].
  - exists mode. rewrite Remove_other by exact Hne.
    rewrite Hf2. apply lookup_insert_eq.
  - destruct (decide (dst ++ ".new" = build)) as [->|Hnb].
    + apply Remove_gone.
    + rewrite Remove_other by exact Hnb. rewrite Hf2.
      rewrite lookup_insert_ne by (intros H; symmetry in H; now apply tmp_neq_dst in H).
      apply lookup_delete_eq.
  - apply Remove_gone.
Qed.

Lemma runUpdate_installs_wp E force dry w :
  wpF (runUpdate E force dry) w (fun r w' =>
    exists evs,
      since w evs w'
      /\ (r = None ->
          runtime_GOOS E ≠ "darwin" ->
          (installLocation E).1 ≠ tmpBinaryPath E ->
          forall name data perm,
            In (EvWriteFile name data perm) evs ->
            (exists mode,
               files (fs w') !! (installLocation E).1 = Some (mkFile data mode))
            /\ files (fs w') !! ((installLocation E).1 ++ ".new") = None
            /\ files (fs w') !! tmpBinaryPath E = None)).
Proof.
  unfold runUpdate, tmpBinaryPath.
  set (tmp := filepath.Join [os_TempDir E; _]).
  apply wpF_func.
  repeat wp_step.
  all: eexists; split; [since_tac|].
  all: intros Hr Hgoos Hne name data perm Hin; try discriminate Hr.
  all: try (no_such_event Hin).
  all: try (exfalso; apply Hgoos; now apply String.eqb_eq).
  all: split_event Hin; injection Hin as <- <- <-.
  all: rewrite removeDeferred_fs; cbn [fs emit fst] in *.
  all: eapply installed_files; eassumption.
Qed.

(** X8. After a successful run of [runUpdate] that wrote a file (off
    darwin, where nothing runs after the rename), the install path holds
    exactly the bytes that were written, the temporary file next to it is
    gone and so is the temporary build output. *)
Theorem runUpdate_success_installs (E : Env) (force dry : bool)
    (w w' : World) (evs : list Event) (name data : string) (perm : Z) :
  runUpdate E force dry w = (None, w') ->
  since w evs w' ->
  runtime_GOOS E ≠ "darwin" ->
  (installLocation E).1 ≠ tmpBinaryPath E ->
  In (EvWriteFile name data perm) evs ->
  (exists mode, files (fs w') !! (installLocation E).1 = Some (mkFile data mode))
  /\ files (fs w') !! ((installLocation E).1 ++ ".new") = None
  /\ files (fs w') !! tmpBinaryPath E = None.
Proof.
  intros Hrun Hsince Hgoos Hne Hin.
  destruct (wpF_run _ _ _ _ _ (runUpdate_installs_wp E force dry w) Hrun)
    as (evs' & Hsince' & H).
  rewrite <- (since_unique _ _ _ _ Hsince Hsince') in H.
  exact (H eq_refl Hgoos Hne name data perm Hin).
Qed.

Lemma runUpdate_success_installs_witness :
  let w := mkWorld Sample.freshDisk [] in
  let run := runUpdate Sample.env true false w in
  run.1 = None
  /\ (exists mode, files (fs run.2) !! "/usr/local/bin/gt" = Some (mkFile "ELF" mode))
  /\ files (fs run.2) !! "/usr/local/bin/gt.new" = None
  /\ files (fs run.2) !! "/tmp/gt-build-1700000000" = None.
Proof.
  intros w run.
  assert (Hr : run.1 = None) by (vm_compute; reflexivity).
  split; [exact Hr|].
  assert (Hrun : runUpdate Sample.env true false w = (None, run.2))
    by (rewrite <- Hr; apply surjective_pairing).
  assert (Hgoos : runtime_GOOS Sample.env ≠ "darwin") by discriminate.
  assert (Hne : (installLocation Sample.env).1 ≠ tmpBinaryPath Sample.env)
    by (vm_compute; discriminate).
  assert (Hin : In (EvWriteFile "/usr/local/bin/gt.new" "ELF" perm_0755) (trace run.2))
    by (vm_compute; tauto).
  exact (runUpdate_success_installs Sample.env true false w run.2 (trace run.2)
           _ _ _ Hrun eq_refl Hgoos Hne Hin).
Defined.

(** ** What [copyFile] touches *)

(** X9. [copyFile] touches nothing but the destination and the temporary
    file next to it: all other files and all directories stay as they
    are.  Whenever it returns an error the destination itself is as it
    was, and when the source cannot be read nothing changes at all. *)
Theorem copyFile_frame (E : Env) (src dst : string) (w w' : World) (r : GoError) :
  copyFile E src dst w = (r, w') ->
  dirs (fs w') = dirs (fs w)
  /\ (forall other, other ≠ dst -> other ≠ dst ++ ".new" ->
      files (fs w') !! other = files (fs w) !! other)
  /\ (r ≠ None -> files (fs w') !! dst = files (fs w) !! dst)
  /\ (forall e, r = Some ("reading source: " ++ e) -> fs w' = fs w).
Proof.
  intros Hrun.
  pose proof (copyFile_keeps_dirs E src dst w) as Hdirs.
  pose proof (copyFile_run E src dst w) as Hc.
  rewrite Hrun in Hc, Hdirs. simpl in Hc, Hdirs.
  split; [exact Hdirs|].
  inversion Hc as [e Hr|data fs1 e Hr Hw|data fs1 e Hr Hw Hrn
                  |data fs1 fs2 Hr Hw Hrn]; subst; simpl.
  - repeat split; auto.
  - repeat split.
    + intros other _ Hnew. eapply WriteFile_Err_others; eauto.
    + intros _. eapply WriteFile_Err_others; eauto.
      intros H; symmetry in H; now apply tmp_neq_dst in H.
    + discriminate.
  - apply WriteFile_Ok in Hw as (mode & Hf1 & _).
    assert (Htmp : files fs1 !! (dst ++ ".new") = Some (mkFile data mode))
      by now rewrite Hf1, lookup_insert_eq.
    rewrite (Remove_file _ _ _ Htmp). simpl. rewrite Hf1.
    repeat split.
    + intros other _ Hnew. rewrite lookup_delete_ne, lookup_insert_ne; auto.
    + intros _. rewrite lookup_delete_ne, lookup_insert_ne; auto using tmp_neq_dst.
    + discriminate.
  - apply WriteFile_Ok in Hw as (mode & Hf1 & _).
    apply Rename_Ok in Hrn as (f & _ & Hf2 & _).
    rewrite Hf2, Hf1. repeat split.
    + intros other Hdst Hnew.
      rewrite lookup_insert_ne, lookup_delete_ne, lookup_insert_ne; auto.
    + intros H. now contradiction H.
    + discriminate.
Qed.

Lemma copyFile_frame_witness :
  let run := copyFile (Sample.withFaults Sample.diskFull Sample.env)
               "/tmp/gt-build" "/usr/local/bin/gt" Sample.world in
  run.1 ≠ None
  /\ files (fs run.2) !! "/usr/local/bin/gt" = Some (mkFile "ELF-old" perm_0755)
  /\ files (fs run.2) !! "/tmp/gt-build" = Some (mkFile "ELF-new" perm_0755).
Proof.
  intros run.
  assert (Hr : run.1 ≠ None) by (vm_compute; discriminate).
  destruct (copyFile_frame _ _ _ _ run.2 run.1 (surjective_pairing _))
    as (_ & Hother & Hdst & _).
  split; [exact Hr|]. split.
  - rewrite (Hdst Hr). vm_compute. reflexivity.
  - rewrite Hother by discriminate. vm_compute. reflexivity.
Defined.

(** X10. After a successful [copyFile], reading the destination gives the
    bytes of the source.  The installed file has mode [0755] cut by the
    umask when no [dst ++ ".new"] existed before; a leftover
    [dst ++ ".new"] passes its own mode on to the installed file. *)
Theorem copyFile_read_back (E : Env) (src dst : string) (w w' : World) :
  copyFile E src dst w = (None, w') ->
  exists f installed,
    files (fs w) !! src = Some f
    /\ files (fs w') !! dst = Some installed
    /\ f_data installed = f_data f
    /\ f_mode installed
       = match files (fs w) !! (dst ++ ".new") with
         | Some leftover => f_mode leftover
         | None => Z.land perm_0755 (Z.lnot (umask E))
         end
    /\ (fault_read (faults E) dst = false ->
        os.ReadFile (faults E) dst (fs w') = os.ReadFile (faults E) src (fs w)).
Proof.
  intros Hrun.
  pose proof (copyFile_run E src dst w) as Hc. rewrite Hrun in Hc. simpl in Hc.
  inversion Hc as [| | |data fs1 fs2 Hread Hwrite Hren]; subst.
  pose proof Hread as Hread'.
  apply ReadFile_Ok in Hread as (f & Hf & <- & Hnf).
  assert (Hmode : exists mode,
             files fs1 = <[dst ++ ".new" := mkFile (f_data f) mode]> (files (fs w))
             /\ mode = match files (fs w) !! (dst ++ ".new") with
                       | Some leftover => f_mode leftover
                       | None => Z.land perm_0755 (Z.lnot (umask E))
                       end).
  { revert Hwrite. unfold os.WriteFile.
    case_bool_decide; [discriminate|].
    case_bool_decide; simpl; [|discriminate].
    destruct (fault_write (faults E) (dst ++ ".new")); [discriminate|].
    intros [= <-]. simpl. eauto. }
  destruct Hmode as (mode & Hf1 & Hm).
  apply Rename_Ok in Hren as (f' & Hold & Hf2 & _).
  rewrite Hf1, lookup_insert_eq in Hold. injection Hold as <-.
  exists f, (mkFile (f_data f) mode). simpl.
  assert (Hdst : files fs2 !! dst = Some (mkFile (f_data f) mode))
    by (rewrite Hf2; apply lookup_insert_eq).
  repeat split; auto.
  intros Hnofault. rewrite Hread'. unfold os.ReadFile. now rewrite Hdst, Hnofault.
Qed.

(** A leftover temporary file with mode [0644]: the installation
    succeeds and the installed binary is not executable. *)
Lemma copyFile_read_back_witness :
  let w := mkWorld Scenario.leftoverDisk [] in
  let run := copyFile Sample.env "/tmp/gt-build" "/usr/local/bin/gt" w in
  run.1 = None
  /\ exists installed,
       files (fs run.2) !! "/usr/local/bin/gt" = Some installed
       /\ f_data installed = "ELF-new"
       /\ f_mode installed = 420.
Proof.
  intros w run.
  assert (Hr : run.1 = None) by (vm_compute; reflexivity).
  split; [exact Hr|].
  assert (Hrun : copyFile Sample.env "/tmp/gt-build" "/usr/local/bin/gt" w = (None, run.2))
    by (rewrite <- Hr; apply surjective_pairing).
  destruct (copyFile_read_back _ _ _ _ _ Hrun) as (f & installed & Hf & Hi & Hd & Hm & _).
  exists installed. split; [exact Hi|].
  assert (Hsrc : files (fs w) !! "/tmp/gt-build" = Some (mkFile "ELF-new" perm_0755))
    by (vm_compute; reflexivity).
  rewrite Hsrc in Hf. injection Hf as <-.
  split; [exact Hd|].
  rewrite Hm. vm_compute. reflexivity.
Defined.

(** ** The running binary as install location *)

(** X11. [determineInstallLocation] returns the path of the running
    binary (through its symlinks when they resolve) whenever that path is
    known and carries neither marker; the home directory is not needed
    for that.  When the running binary is unknown the fallback decides.
    An error never comes with a path. *)
Theorem determineInstallLocation_running_binary (E : Env) (w : World) :
  (forall path,
     currentBinaryPath E = Some path ->
     ephemeral path = false ->
     determineInstallLocation E w = ((path, None), w))
  /\ (forall e,
        os_Executable E = Err e ->
        (determineInstallLocation E w).1
        = match os_UserHomeDir E with
          | Ok home => (filepath.Join [home; ".local"; "bin"; "gt"], None)
          | Err err => ("", Some ("getting home directory: " ++ err))
          end)
  /\ (forall path err,
        (determineInstallLocation E w).1 = (path, Some err) -> path = "").
Proof.
  rewrite (surjective_pairing (determineInstallLocation E w)).
  rewrite determineInstallLocation_frame, determineInstallLocation_value.
  split; [|split].
  - intros path -> ->. reflexivity.
  - intros e He. unfold currentBinaryPath. now rewrite He.
  - intros path err.
    destruct (currentBinaryPath E) as [p|]; [destruct (ephemeral p)|];
      destruct (os_UserHomeDir E); intros [= <-]; try reflexivity; discriminate.
Qed.

Lemma determineInstallLocation_running_binary_witness :
  currentBinaryPath Scenario.homeless = Some "/opt/gt/bin/gt"
  /\ ephemeral "/opt/gt/bin/gt" = false
  /\ determineInstallLocation Scenario.homeless Sample.world
     = (("/opt/gt/bin/gt", None), Sample.world).
Proof.
  assert (Hp : currentBinaryPath Scenario.homeless = Some "/opt/gt/bin/gt")
    by reflexivity.
  assert (He : ephemeral "/opt/gt/bin/gt" = false) by (vm_compute; reflexivity).
  split; [exact Hp|]. split; [exact He|].
  exact (proj1 (determineInstallLocation_running_binary Scenario.homeless Sample.world)
           _ Hp He).
Defined.

(** ** The answers that decline *)

Lemma lowerChar_n c :
  strings.lowerChar c = "n"%char -> c = "n"%char \/ c = "N"%char.
Proof.
  destruct c as [[] [] [] [] [] [] [] []]; vm_compute; intros H;
    try discriminate H; auto.
Qed.

Lemma lowerChar_o c :
  strings.lowerChar c = "o"%char -> c = "o"%char \/ c = "O"%char.
Proof.
  destruct c as [[] [] [] [] [] [] [] []]; vm_compute; intros H;
    try discriminate H; auto.
Qed.

Lemma ToLower_declines s :
  strings.ToLower s = "n" \/ strings.ToLower s = "no" <-> In s decliningAnswers.
Proof.
  split.
  - intros [H|H].
    + destruct s as [|c [|c' s']]; try discriminate H.
      injection H as H. apply lowerChar_n in H as [->| ->]; simpl; auto.
    + destruct s as [|c [|c' [|c'' s']]]; try discriminate H.
      injection H as H H'.
      apply lowerChar_n in H as [->| ->];
        apply lowerChar_o in H' as [->| ->]; simpl; tauto.
  - intros H. simpl in H. intuition (subst; vm_compute; auto).
Qed.

Lemma declined_answers E : declined E = true <-> In (answer E) decliningAnswers.
Proof.
  rewrite declined_iff. unfold response, answer. apply ToLower_declines.
Qed.

(** X12. The confirmation is declined by exactly six answers, compared
    after trimming: [n], [N], [no], [No], [nO] and [NO].  With
    [force = false], once the answer has been read, one of these makes
    [runUpdate] print ["Aborted."] and return [nil]; any other answer
    ([y], [yes], [nope], nothing at all) starts the build. *)
Theorem confirmation_answers (E : Env) (dry : bool) (w w' : World)
    (r : GoError) (evs : list Event) :
  runUpdate E false dry w = (r, w') ->
  since w evs w' ->
  In EvScanln evs ->
  (In (answer E) decliningAnswers ->
   r = None
   /\ exists pre, evs = (pre ++ [EvScanln; EvPrint ("Aborted." ++ nl)])%list)
  /\ (~ In (answer E) decliningAnswers ->
      exists pre repoRoot post,
        evs = (pre ++ [EvScanln; EvPrint ("" ++ nl);
                       EvPrint ("Building gt..." ++ nl);
                       EvExec "git" ["describe"; "--tags"; "--always"; "--dirty"]
                              repoRoot]
                   ++ post)%list).
Proof.
  intros Hrun Hsince Hscan. split.
  - intros Hd. apply declined_answers in Hd.
    destruct (wpF_run _ _ _ _ _ (runUpdate_declined_wp E dry w Hd) Hrun)
      as (_ & evs' & Hsince' & _ & H).
    rewrite <- (since_unique _ _ _ _ Hsince Hsince') in H. auto.
  - intros Hd.
    assert (Hd' : declined E = false).
    { apply not_true_is_false. now rewrite declined_answers. }
    destruct (wpF_run _ _ _ _ _ (runUpdate_not_declined_wp E dry w Hd') Hrun)
      as (evs' & Hsince' & H).
    rewrite <- (since_unique _ _ _ _ Hsince Hsince') in H.
    now apply proceedsAfterAnswer_spec.
Qed.

Lemma confirmation_answers_witness :
  let E := Sample.withScan (Scanned "nope") Sample.env in
  let run := runUpdate E false false Sample.world in
  In EvScanln (trace run.2)
  /\ ~ In (answer E) decliningAnswers
  /\ exists pre repoRoot post,
       trace run.2
       = (pre ++ [EvScanln; EvPrint ("" ++ nl);
                  EvPrint ("Building gt..." ++ nl);
                  EvExec "git" ["describe"; "--tags"; "--always"; "--dirty"]
                         repoRoot]
              ++ post)%list.
Proof.
  intros E run.
  assert (Hscan : In EvScanln (trace run.2)) by (vm_compute; tauto).
  assert (Hans : ~ In (answer E) decliningAnswers).
  { vm_compute. intros H.
    repeat (destruct H as [H|H]; [discriminate H|]). exact H. }
  split; [exact Hscan|]. split; [exact Hans|].
  exact (proj2 (confirmation_answers E false Sample.world run.2 run.1 (trace run.2)
                  (surjective_pairing _) eq_refl Hscan) Hans).
Defined.

(** ** The dry run announces the real target *)

Lemma ends_with_rev1 {A} (l : list A) a tl :
  rev l = a :: tl -> exists pre, l = (pre ++ [a])%list.
Proof.
  intros H. exists (rev tl). now rewrite <- (rev_involutive l), H.
Qed.

Lemma runUpdate_dry_run_plan_wp E force w :
  wpF (runUpdate E force true) w (fun r w' =>
    exists evs,
      since w evs w'
      /\ (preflightError E = None -> ~ upToDateStop E force ->
          r = None
          /\ exists pre,
               evs = (pre ++ EvPrint ("  3. Install to " ++ (installLocation E).1 ++ nl)
                          :: if String.eqb (runtime_GOOS E) "darwin"
                             then [EvPrint ("  4. Codesign binary for macOS" ++ nl)]
                             else [])%list)).
Proof.
  unfold runUpdate, preflightError, upToDateStop. apply wpF_func. cbv zeta.
  destruct (version_GetRepoRoot E) as [repoRoot|e] eqn:Hrepo; lazy beta iota.
  2: { wp_step. exists []. split; [since_tac|]. discriminate. }
  destruct (version_CheckStaleBinary E repoRoot)
    as [stale bcom rcom behind err] eqn:Hinfo.
  destruct err, stale, force; cbn [Error IsStale isNil negb andb].
  all: repeat wp_step.
  all: eexists; split; [since_tac|].
  all: intros Hpre Hstop; try discriminate Hpre.
  all: try (exfalso; apply Hstop; eexists; rewrite Hinfo; simpl; eauto; fail).
  all: split; [reflexivity|].
  all: simpl.
  all: first [ eapply ends_with_rev; simpl; reflexivity
             | eapply ends_with_rev1; simpl; reflexivity ].
Qed.

Lemma Effects_rename root ip tmp goos effs old new :
  Effects root ip tmp goos effs ->
  In (EvRename old new) effs ->
  old = ip ++ ".new" /\ new = ip.
Proof.
  intros He Hin.
  destruct He; split_event Hin; injection Hin as <- <-; auto.
Qed.

(** X13. The dry run and the real run agree on the target.  When the
    checks in front of the build pass and the run does not stop at the
    up-to-date report, a dry run returns [nil] and its plan ends with
    ["3. Install to"] the install location (and the codesign line on
    darwin only); every rename of a real run in the same environment moves
    that location's [.new] file onto that location. *)
Theorem dry_run_announces_target (E : Env) (force : bool)
    (w wd wr : World) (rd rr : GoError) (evsd evsr : list Event) :
  runUpdate E force true w = (rd, wd) ->
  since w evsd wd ->
  runUpdate E force false w = (rr, wr) ->
  since w evsr wr ->
  preflightError E = None ->
  ~ upToDateStop E force ->
  (rd = None
   /\ exists pre,
        evsd = (pre ++ EvPrint ("  3. Install to " ++ (installLocation E).1 ++ nl)
                    :: if String.eqb (runtime_GOOS E) "darwin"
                       then [EvPrint ("  4. Codesign binary for macOS" ++ nl)]
                       else [])%list)
  /\ (forall old new,
        In (EvRename old new) evsr ->
        old = (installLocation E).1 ++ ".new" /\ new = (installLocation E).1).
Proof.
  intros Hdry Hsd Hreal Hsr Hpre Hstop. split.
  - destruct (wpF_run _ _ _ _ _ (runUpdate_dry_run_plan_wp E force w) Hdry)
      as (evs' & Hs' & H).
    rewrite <- (since_unique _ _ _ _ Hsd Hs') in H. auto.
  - intros old new Hin.
    destruct (wpF_run _ _ _ _ _ (runUpdate_effects_wp E force false w) Hreal)
      as (evs' & Hs' & He).
    rewrite <- (since_unique _ _ _ _ Hsr Hs') in He.
    eapply Effects_rename; [exact He|].
    apply List.filter_In. split; [exact Hin | reflexivity].
Qed.

Lemma dry_run_announces_target_witness :
  let w := mkWorld Sample.freshDisk [] in
  let dry := runUpdate Sample.env true true w in
  let real := runUpdate Sample.env true false w in
  preflightError Sample.env = None
  /\ ~ upToDateStop Sample.env true
  /\ dry.1 = None
  /\ (exists pre,
        trace dry.2 = (pre ++ [EvPrint ("  3. Install to /usr/local/bin/gt" ++ nl)])%list)
  /\ In (EvRename "/usr/local/bin/gt.new" "/usr/local/bin/gt") (trace real.2).
Proof.
  intros w dry real.
  assert (Hpre : preflightError Sample.env = None) by reflexivity.
  assert (Hstop : ~ upToDateStop Sample.env true)
    by (intros (? & _ & _ & _ & H); discriminate H).
  split; [exact Hpre|]. split; [exact Hstop|].
  destruct (dry_run_announces_target Sample.env true w dry.2 real.2 dry.1 real.1
              (trace dry.2) (trace real.2)
              (surjective_pairing _) eq_refl (surjective_pairing _) eq_refl Hpre Hstop)
    as ((Hr & Hplan) & _).
  split; [exact Hr|]. split; [exact Hplan|].
  vm_compute. tauto.
Defined.
